(** * uwv_dynamic_model: the 6-DOF underwater-vehicle dynamics of
      [src/DynamicModel.cpp], embedded in Rocq.

    The C++ class [DynamicModel] evaluates the rigid-body equation of motion

        M a + D(v) v + C(v) v + g(R) = tau

    on Eigen's fixed-size types over [double].  The embedding keeps the scalar
    type abstract behind the class [Scalar] (Eigen is templated over its
    scalar as well), so that one translation of the source serves two readings:
    IEEE binary64 ([float], the machine [double], with NaN and infinities) and
    exact arithmetic (any commutative ring, instantiated at the rationals
    [Qc]). *)

From Stdlib Require Import List String Bool ZArith QArith Qcanon Qcabs Ring.
From Stdlib Require Import PrimFloat.
Import ListNotations.

Set Implicit Arguments.

(* ================================================================== *)
(** * Scalars *)

Class Scalar (T : Type) : Type := {
  s0 : T;                      (* Scalar(0) *)
  s1 : T;                      (* Scalar(1) *)
  sadd : T -> T -> T;
  ssub : T -> T -> T;
  smul : T -> T -> T;
  sdiv : T -> T -> T;
  sopp : T -> T;
  sabs : T -> T;               (* std::abs *)
  sle : T -> T -> bool;        (* a <= b *)
  slt : T -> T -> bool;        (* a <  b *)
  sisnan : T -> bool           (* !(a == a) *)
}.

Declare Scope scalar_scope.
Delimit Scope scalar_scope with S.
Infix "+" := sadd : scalar_scope.
Infix "-" := ssub : scalar_scope.
Infix "*" := smul : scalar_scope.
Infix "/" := sdiv : scalar_scope.
Notation "- x" := (sopp x) : scalar_scope.
Infix "<=?" := sle : scalar_scope.
Infix "<?" := slt : scalar_scope.

(** The machine instance: C++ [double] is IEEE 754 binary64. *)
#[export] Instance float_Scalar : Scalar float := {
  s0 := PrimFloat.zero;
  s1 := PrimFloat.one;
  sadd := PrimFloat.add;
  ssub := PrimFloat.sub;
  smul := PrimFloat.mul;
  sdiv := PrimFloat.div;
  sopp := PrimFloat.opp;
  sabs := PrimFloat.abs;
  sle := PrimFloat.leb;
  slt := PrimFloat.ltb;
  sisnan := PrimFloat.is_nan
}.

(** The exact instance: canonical rationals, where no value is a NaN. *)
#[export] Instance Qc_Scalar : Scalar Qc := {
  s0 := 0%Qc;
  s1 := 1%Qc;
  sadd := Qcplus;
  ssub := Qcminus;
  smul := Qcmult;
  sdiv := Qcdiv;
  sopp := Qcopp;
  sabs := Qcabs;
  sle := fun a b => Qle_bool a b;
  slt := fun a b => negb (Qle_bool b a);
  sisnan := fun _ => false
}.

(* ================================================================== *)
(** * The part of Eigen the source uses *)

Module Eigen.

(** ** Fixed-size vectors *)

(** [Eigen::Matrix<_,3,1>]. *)
Record Vector3 (A : Type) : Type := mkVector3 { vx : A; vy : A; vz : A }.

(** [Eigen::Matrix<_,6,1>]; a 6x6 matrix is held as its six rows. *)
Record Vector6 (A : Type) : Type :=
  mkVector6 { c0 : A; c1 : A; c2 : A; c3 : A; c4 : A; c5 : A }.

Definition map3 {A B} (f : A -> B) (v : Vector3 A) : Vector3 B :=
  mkVector3 (f (vx v)) (f (vy v)) (f (vz v)).

Definition zip3 {A B C} (f : A -> B -> C) (a : Vector3 A) (b : Vector3 B) : Vector3 C :=
  mkVector3 (f (vx a) (vx b)) (f (vy a) (vy b)) (f (vz a) (vz b)).

Definition map6 {A B} (f : A -> B) (v : Vector6 A) : Vector6 B :=
  mkVector6 (f (c0 v)) (f (c1 v)) (f (c2 v)) (f (c3 v)) (f (c4 v)) (f (c5 v)).

Definition zip6 {A B C} (f : A -> B -> C) (a : Vector6 A) (b : Vector6 B) : Vector6 C :=
  mkVector6 (f (c0 a) (c0 b)) (f (c1 a) (c1 b)) (f (c2 a) (c2 b))
            (f (c3 a) (c3 b)) (f (c4 a) (c4 b)) (f (c5 a) (c5 b)).

Definition const6 {A} (a : A) : Vector6 A := mkVector6 a a a a a a.

(** [v[i]].  The source only indexes below the size; [d] stands for the
    out-of-range read that C++ leaves undefined. *)
Definition coeff {A} (d : A) (v : Vector6 A) (i : nat) : A :=
  match i with
  | 0 => c0 v | 1 => c1 v | 2 => c2 v | 3 => c3 v | 4 => c4 v | 5 => c5 v
  | _ => d
  end%nat.

(** [v.head<3>()], [v.tail<3>()] and the comma initialiser [v6 << a, b]. *)
Definition head3 {A} (v : Vector6 A) : Vector3 A := mkVector3 (c0 v) (c1 v) (c2 v).
Definition tail3 {A} (v : Vector6 A) : Vector3 A := mkVector3 (c3 v) (c4 v) (c5 v).
Definition join3 {A} (a b : Vector3 A) : Vector6 A :=
  mkVector6 (vx a) (vy a) (vz a) (vx b) (vy b) (vz b).

Section WithScalar.
Context {T : Type} `{Scalar T}.
Local Open Scope scalar_scope.

Definition Vector3d : Type := Vector3 T.
Definition Vector6d : Type := Vector6 T.
Definition Matrix6d : Type := Vector6 (Vector6 T).

(** ** 3-vectors *)
Definition add3 (a b : Vector3d) : Vector3d := zip3 sadd a b.
Definition sub3 (a b : Vector3d) : Vector3d := zip3 ssub a b.
Definition scale3 (a : Vector3d) (s : T) : Vector3d := map3 (fun x => x * s) a.
Definition zero3 : Vector3d := mkVector3 s0 s0 s0.

(** [a.cross(b)]. *)
Definition cross (a b : Vector3d) : Vector3d :=
  mkVector3 (vy a * vz b - vz a * vy b)
            (vz a * vx b - vx a * vz b)
            (vx a * vy b - vy a * vx b).

(** ** 6-vectors *)
Definition Zero6 : Vector6d := const6 s0.
Definition add6 (a b : Vector6d) : Vector6d := zip6 sadd a b.
Definition sub6 (a b : Vector6d) : Vector6d := zip6 ssub a b.
Definition opp6 (a : Vector6d) : Vector6d := map6 sopp a.
Definition cwiseAbs (a : Vector6d) : Vector6d := map6 sabs a.

(** [v.hasNaN()]: some coefficient differs from itself. *)
Definition hasNaN (a : Vector6d) : bool :=
  sisnan (c0 a) || sisnan (c1 a) || sisnan (c2 a)
  || sisnan (c3 a) || sisnan (c4 a) || sisnan (c5 a).

Definition dot6 (a b : Vector6d) : T :=
  c0 a * c0 b + c1 a * c1 b + c2 a * c2 b + c3 a * c3 b + c4 a * c4 b + c5 a * c5 b.

(** ** 6x6 matrices *)
Definition MZero : Matrix6d := const6 Zero6.
Definition Identity : Matrix6d :=
  mkVector6 (mkVector6 s1 s0 s0 s0 s0 s0) (mkVector6 s0 s1 s0 s0 s0 s0)
            (mkVector6 s0 s0 s1 s0 s0 s0) (mkVector6 s0 s0 s0 s1 s0 s0)
            (mkVector6 s0 s0 s0 s0 s1 s0) (mkVector6 s0 s0 s0 s0 s0 s1).

Definition madd (a b : Matrix6d) : Matrix6d := zip6 add6 a b.
(** [m * s], a matrix scaled by a scalar on the right. *)
Definition mscale (m : Matrix6d) (s : T) : Matrix6d := map6 (map6 (fun x => x * s)) m.
(** [m * v]. *)
Definition mulv (m : Matrix6d) (v : Vector6d) : Vector6d := map6 (fun row => dot6 row v) m.

Definition col (m : Matrix6d) (j : Vector6d -> T) : Vector6d := map6 j m.
Definition transpose (m : Matrix6d) : Matrix6d :=
  mkVector6 (col m (@c0 T)) (col m (@c1 T)) (col m (@c2 T))
            (col m (@c3 T)) (col m (@c4 T)) (col m (@c5 T)).
(** [a * b]. *)
Definition mmul (a b : Matrix6d) : Matrix6d :=
  map6 (fun row => map6 (fun column => dot6 row column) (transpose b)) a.

(** [m * d.asDiagonal()]: Eigen scales column [j] of [m] by [d[j]]. *)
Definition mul_asDiagonal (m : Matrix6d) (d : Vector6d) : Matrix6d :=
  map6 (fun row => zip6 smul row d) m.

(** ** Quaternions ([base::Orientation] is [Eigen::Quaterniond]) *)
Record Quaternion : Type := mkQuaternion { qw : T; qx : T; qy : T; qz : T }.

Definition vec (q : Quaternion) : Vector3d := mkVector3 (qx q) (qy q) (qz q).
Definition squaredNorm (q : Quaternion) : T :=
  qx q * qx q + qy q * qy q + qz q * qz q + qw q * qw q.
Definition conjugate (q : Quaternion) : Quaternion :=
  mkQuaternion (qw q) (- qx q) (- qy q) (- qz q).

(** [q.inverse()]: the conjugate over the squared norm, and the zero
    quaternion when the squared norm is not positive. *)
Definition inverse (q : Quaternion) : Quaternion :=
  let n2 := squaredNorm q in
  if s0 <? n2 then
    let c := conjugate q in
    mkQuaternion (qw c / n2) (qx c / n2) (qy c / n2) (qz c / n2)
  else mkQuaternion s0 s0 s0 s0.

(** [q * v]: [uv = 2 (vec x v)], result [v + w uv + vec x uv]. *)
Definition rotate (q : Quaternion) (v : Vector3d) : Vector3d :=
  let uv := cross (vec q) v in
  let uv := add3 uv uv in
  add3 (add3 v (map3 (fun x => qw q * x) uv)) (cross (vec q) uv).

End WithScalar.

Arguments Vector3d T : clear implicits.
Arguments Vector6d T : clear implicits.
Arguments Matrix6d T : clear implicits.
Arguments Quaternion T : clear implicits.

(** [Eigen::JacobiSVD<MatrixXd>(a, ComputeThinU | ComputeThinV).solve(b)]:
    the least-squares solution of [a x = b].  The decomposition is Eigen's
    iterative floating-point routine, which lies outside the repository; the
    model takes it as an interface of the scalar type.  It is a total
    function: Eigen's [solve] raises no exception. *)
Class JacobiSVD (T : Type) `{Scalar T} : Type :=
  { svd_solve : Matrix6d T -> Matrix6d T -> Matrix6d T }.
Arguments JacobiSVD T {_}.

End Eigen.
Import Eigen.

(* ================================================================== *)
(** * C++ exceptions *)

Inductive exception : Type :=
| invalid_argument (what : string)      (* std::invalid_argument *)
| runtime_error (what : string).        (* std::runtime_error *)

(** The outcome of a call: a returned value or a thrown exception. *)
Inductive result (A : Type) : Type :=
| Ok (a : A)
| Throw (e : exception).
Arguments Throw {A} e.

Definition bind {A B} (r : result A) (k : A -> result B) : result B :=
  match r with
  | Ok a => k a
  | Throw e => Throw e
  end.

Notation "x <- r ;; k" := (bind r (fun x => k))
  (at level 61, r at next level, right associativity).
Notation "r ;;; k" := (bind r (fun _ => k))
  (at level 61, right associativity).

(* ================================================================== *)
(** * uwv_dynamic_model *)

(** [enum ModelType], in the order of the header. *)
Inductive ModelType : Type := SIMPLE | COMPLEX | INTERMEDIATE.

Section Model.
Context {T : Type} `{JacobiSVD T}.
Local Open Scope scalar_scope.

(** [struct UWVParameters]: the header that declares it is not among the
    sources; these are the members [DynamicModel.cpp] reads. *)
Record UWVParameters : Type := mkUWVParameters {
  model_type : ModelType;
  inertia_matrix : Matrix6d T;
  damping_matrices : list (Matrix6d T);
  distance_body2centerofbuoyancy : Vector3d T;
  distance_body2centerofgravity : Vector3d T;
  weight : T;
  buoyancy : T
}.

(** The data members of [class DynamicModel].  Its constructor calls
    [setUWVParameters] on the default parameter set of the header. *)
Record DynamicModel : Type := mkDynamicModel {
  uwv_parameters : UWVParameters;
  invert_inertia_matrix : Matrix6d T
}.

(** A non-const member function: it runs on the object and leaves it in
    the state reached when it returned or threw. *)
Definition Method (A : Type) : Type := DynamicModel -> result A * DynamicModel.

Definition call {A} (r : result A) : Method A := fun this => (r, this).
Definition seq_method {A B} (m : Method A) (k : A -> Method B) : Method B :=
  fun this =>
    match m this with
    | (Ok a, this') => k a this'
    | (Throw e, this') => (Throw e, this')
    end.
Definition assign_uwv_parameters (p : UWVParameters) : Method unit :=
  fun this => (Ok tt, mkDynamicModel p (invert_inertia_matrix this)).
Definition assign_invert_inertia_matrix (m : DynamicModel -> Matrix6d T) : Method unit :=
  fun this => (Ok tt, mkDynamicModel (uwv_parameters this) (m this)).

(** ** Input checks *)

Definition checkParameters (uwv_parameters : UWVParameters) : result unit :=
  if match model_type uwv_parameters with SIMPLE => true | _ => false end
     && negb (List.length (damping_matrices uwv_parameters) =? 2)%nat
  then Throw (invalid_argument "in SIMPLE model, damping_matrices should have two elements, the linear damping matrix and quadratic damping matrix")
  else
  if match model_type uwv_parameters with COMPLEX => true | _ => false end
     && negb (List.length (damping_matrices uwv_parameters) =? 6)%nat
  then Throw (invalid_argument "in COMPLEX model, damping_matrices should have six elements, one quadratic damping matrix / DOF")
  else
  if weight uwv_parameters <=? s0
  then Throw (invalid_argument "weight must be a positive value")
  else
  if buoyancy uwv_parameters <=? s0
  then Throw (invalid_argument "buoyancy must be a positive value")
  else Ok tt.

Definition checkControlInput (control_input : Vector6d T) : result unit :=
  if hasNaN control_input
  then Throw (runtime_error "DynamicModel checkControlInput: control input is unset")
  else Ok tt.

Definition checkVelocity (velocity : Vector6d T) : result unit :=
  if hasNaN velocity
  then Throw (runtime_error "DynamicModel checkVelocity: velocity is unset")
  else Ok tt.

Definition checkAcceleration (acceleration : Vector6d T) : result unit :=
  if hasNaN acceleration
  then Throw (runtime_error "DynamicModel checkAcceleration: acceleration is unset")
  else Ok tt.

(** ** The terms of the equation of motion *)

Definition calcInvInertiaMatrix (inertia_matrix : Matrix6d T) : Matrix6d T :=
  svd_solve inertia_matrix Identity.

Definition calcCoriolisEffect (inertia_matrix : Matrix6d T) (velocity : Vector6d T)
  : Vector6d T :=
  let prod := mulv inertia_matrix velocity in
  let coriloisEffect :=
    join3 (cross (head3 prod) (tail3 velocity))
          (add3 (cross (head3 prod) (head3 velocity))
                (cross (tail3 prod) (tail3 velocity))) in
  opp6 coriloisEffect.

Definition calcLinDamping (lin_damp_matrix : Matrix6d T) (velocity : Vector6d T)
  : Vector6d T :=
  mulv lin_damp_matrix velocity.

Definition calcQuadDamping (quad_damp_matrix : Matrix6d T) (velocity : Vector6d T)
  : Vector6d T :=
  mulv (mul_asDiagonal quad_damp_matrix (cwiseAbs velocity)) velocity.

(** The loop [for (i = 0; i < size; i++) dampMatrix += m[i] * |v|[i]], run
    after the size was found to be 6, so that both reads are in range. *)
Definition caclGeneralQuadDamping (quad_damp_matrices : list (Matrix6d T))
           (velocity : Vector6d T) : result (Vector6d T) :=
  if negb (List.length quad_damp_matrices =? 6)%nat
  then Throw (runtime_error "quadDampMatrices does not have 6 elements.")
  else
    let dampMatrix :=
      fold_left
        (fun dampMatrix i =>
           madd dampMatrix
                (mscale (nth i quad_damp_matrices MZero)
                        (coeff s0 (cwiseAbs velocity) i)))
        (seq 0 (List.length quad_damp_matrices)) MZero in
    Ok (mulv dampMatrix velocity).

Definition caclSimpleDamping (damp_matrices : list (Matrix6d T))
           (velocity : Vector6d T) : result (Vector6d T) :=
  if negb (List.length damp_matrices =? 2)%nat
  then Throw (runtime_error "dampMatrices does not have 2 elements.")
  else Ok (add6 (calcLinDamping (nth 0 damp_matrices MZero) velocity)
                (calcQuadDamping (nth 1 damp_matrices MZero) velocity)).

Definition calcDampingAndCoriolisEffect (uwv_parameters : UWVParameters)
           (velocity : Vector6d T) : result (Vector6d T) :=
  match model_type uwv_parameters with
  | SIMPLE =>
      caclSimpleDamping (damping_matrices uwv_parameters) velocity
  | COMPLEX =>
      d <- caclGeneralQuadDamping (damping_matrices uwv_parameters) velocity ;;
      Ok (add6 (calcCoriolisEffect (inertia_matrix uwv_parameters) velocity) d)
  | INTERMEDIATE =>
      d <- caclSimpleDamping (damping_matrices uwv_parameters) velocity ;;
      Ok (add6 (calcCoriolisEffect (inertia_matrix uwv_parameters) velocity) d)
  end.

(** The five-argument overload of [calcGravityBuoyancy]. *)
Definition calcGravityBuoyancy5 (orientation : Quaternion T)
           (weight bouyancy : T) (cg cb : Vector3d T) : Vector6d T :=
  join3 (rotate (inverse orientation) (mkVector3 s0 s0 (weight - bouyancy)))
        (cross (sub3 (scale3 cg weight) (scale3 cb bouyancy))
               (rotate (inverse orientation) (mkVector3 s0 s0 s1))).

Definition calcGravityBuoyancy (orientation : Quaternion T)
           (uwv_parameters : UWVParameters) : Vector6d T :=
  calcGravityBuoyancy5 orientation (weight uwv_parameters) (buoyancy uwv_parameters)
                       (distance_body2centerofgravity uwv_parameters)
                       (distance_body2centerofbuoyancy uwv_parameters).

(** ** The public member functions *)

Definition calcAcceleration (this : DynamicModel)
           (control_input velocity : Vector6d T) (orientation : Quaternion T)
  : result (Vector6d T) :=
  checkControlInput control_input ;;;
  checkVelocity velocity ;;;
  let acceleration :=
    sub6 control_input (calcGravityBuoyancy orientation (uwv_parameters this)) in
  d <- calcDampingAndCoriolisEffect (uwv_parameters this) velocity ;;
  let acceleration := sub6 acceleration d in
  Ok (mulv (invert_inertia_matrix this) acceleration).

Definition calcEfforts (this : DynamicModel)
           (acceleration velocity : Vector6d T) (orientation : Quaternion T)
  : result (Vector6d T) :=
  checkAcceleration acceleration ;;;
  checkVelocity velocity ;;;
  let efforts :=
    add6 (mulv (inertia_matrix (uwv_parameters this)) acceleration)
         (calcGravityBuoyancy orientation (uwv_parameters this)) in
  d <- calcDampingAndCoriolisEffect (uwv_parameters this) velocity ;;
  let efforts := add6 efforts d in
  Ok efforts.

Definition setUWVParameters (parameters : UWVParameters) : Method unit :=
  seq_method (call (checkParameters parameters)) (fun _ =>
  seq_method (assign_uwv_parameters parameters) (fun _ =>
  assign_invert_inertia_matrix
    (fun this => calcInvInertiaMatrix (inertia_matrix (uwv_parameters this))))).

Definition getUWVParameters (this : DynamicModel) : UWVParameters :=
  uwv_parameters this.

End Model.

Arguments UWVParameters T : clear implicits.
Arguments DynamicModel T : clear implicits.

(* ================================================================== *)
(** * An exact least-squares solver *)

(** In exact arithmetic the least-squares solution of minimal norm that the
    singular value decomposition yields is [pinv a * b], with [pinv a] the
    Moore-Penrose inverse of [a].  Greville's recursion computes it column by
    column with field operations only, so it runs on the rationals; it is the
    [JacobiSVD] instance of the exact scalars. *)
Module Greville.
Section Pinv.
Context {T : Type} `{Scalar T}.
Local Open Scope scalar_scope.

Definition to_list {A} (v : Vector6 A) : list A :=
  [c0 v; c1 v; c2 v; c3 v; c4 v; c5 v].
Definition of_list {A} (d : A) (l : list A) : Vector6 A :=
  mkVector6 (nth 0 l d) (nth 1 l d) (nth 2 l d) (nth 3 l d) (nth 4 l d) (nth 5 l d).

Definition is_zero (x : T) : bool := (x <=? s0) && (s0 <=? x).
Definition ldot (a b : list T) : T :=
  fold_left sadd (map (fun p => fst p * snd p) (combine a b)) s0.
Definition lscale (s : T) (a : list T) : list T := map (fun x => s * x) a.
Definition lsub (a b : list T) : list T := map (fun p => fst p - snd p) (combine a b).
Definition ladd (a b : list T) : list T := map (fun p => fst p + snd p) (combine a b).
(** [sum_j d_j * rows_j], a vector of length [n]. *)
Definition lcomb (n : nat) (d : list T) (rows : list (list T)) : list T :=
  fold_left (fun acc p => ladd acc (lscale (fst p) (snd p))) (combine d rows) (repeat s0 n).

(** One step: [cols] are the columns taken so far, [P] the rows of their
    pseudo-inverse, [a] the next column. *)
Definition step (st : list (list T) * list (list T)) (a : list T)
  : list (list T) * list (list T) :=
  let (cols, P) := st in
  let d := map (fun row => ldot row a) P in
  let c := lsub a (lcomb (List.length a) d cols) in
  let b :=
    if forallb is_zero c
    then map (fun x => x / (s1 + ldot d d)) (lcomb (List.length a) d P)
    else map (fun x => x / ldot c c) c in
  (cols ++ [a], map (fun p => lsub (snd p) (lscale (fst p) b)) (combine d P) ++ [b]).

Definition pinv (a : Matrix6d T) : Matrix6d T :=
  let columns := map to_list (to_list (transpose a)) in
  of_list Zero6 (map (of_list s0) (snd (fold_left step columns ([], [])))).

Definition solve (a b : Matrix6d T) : Matrix6d T := mmul (pinv a) b.
End Pinv.
End Greville.

#[export] Instance Qc_JacobiSVD : JacobiSVD Qc := { svd_solve := Greville.solve }.

(* ================================================================== *)
(** * Definitions used to state the properties *)

Section Statements.
Context {T : Type} `{Scalar T}.
Local Open Scope scalar_scope.

(** [v] with its coefficient [i] replaced by [x]. *)
Definition set_coeff (v : Vector6d T) (i : nat) (x : T) : Vector6d T :=
  match i with
  | 0 => mkVector6 x (c1 v) (c2 v) (c3 v) (c4 v) (c5 v)
  | 1 => mkVector6 (c0 v) x (c2 v) (c3 v) (c4 v) (c5 v)
  | 2 => mkVector6 (c0 v) (c1 v) x (c3 v) (c4 v) (c5 v)
  | 3 => mkVector6 (c0 v) (c1 v) (c2 v) x (c4 v) (c5 v)
  | 4 => mkVector6 (c0 v) (c1 v) (c2 v) (c3 v) x (c5 v)
  | 5 => mkVector6 (c0 v) (c1 v) (c2 v) (c3 v) (c4 v) x
  | _ => v
  end%nat.

(** [p] with another inertia matrix. *)
Definition with_inertia_matrix (p : UWVParameters T) (m : Matrix6d T) : UWVParameters T :=
  mkUWVParameters (model_type p) m (damping_matrices p)
                  (distance_body2centerofbuoyancy p) (distance_body2centerofgravity p)
                  (weight p) (buoyancy p).

(** The number of damping matrices the evaluation of a fidelity reads. *)
Definition damping_count (m : ModelType) : nat :=
  match m with COMPLEX => 6%nat | SIMPLE | INTERMEDIATE => 2%nat end.

(** The dense diagonal matrix of a vector. *)
Definition asDiagonal (d : Vector6d T) : Matrix6d T :=
  mkVector6 (mkVector6 (c0 d) s0 s0 s0 s0 s0) (mkVector6 s0 (c1 d) s0 s0 s0 s0)
            (mkVector6 s0 s0 (c2 d) s0 s0 s0) (mkVector6 s0 s0 s0 (c3 d) s0 s0)
            (mkVector6 s0 s0 s0 s0 (c4 d) s0) (mkVector6 s0 s0 s0 s0 s0 (c5 d)).

(** [acceleration -> efforts -> acceleration] through the two evaluations. *)
Definition roundtrip (this : DynamicModel T) (a v : Vector6d T) (R : Quaternion T)
  : result (Vector6d T) :=
  tau <- calcEfforts this a v R ;;
  calcAcceleration this tau v R.

(** [k * v], [a . b] on 3-vectors, and the world vertical [e3]. *)
Definition scale6 (k : T) (v : Vector6d T) : Vector6d T := map6 (fun x => k * x) v.
Definition dot3 (a b : Vector3d T) : T := vx a * vx b + vy a * vy b + vz a * vz b.
Definition e3 : Vector3d T := mkVector3 s0 s0 s1.

(** Two calls of [setUWVParameters] on the same object, the second only
    when the first returned. *)
Definition setUWVParameters_twice `{!JacobiSVD T} (p q : UWVParameters T)
  : Method unit :=
  seq_method (setUWVParameters p) (fun _ => setUWVParameters q).

(** [acceleration <- calcAcceleration; calcEfforts acceleration]. *)
Definition efforts_of_acceleration (this : DynamicModel T) (u v : Vector6d T)
           (R : Quaternion T) : result (Vector6d T) :=
  acc <- calcAcceleration this u v R ;;
  calcEfforts this acc v R.
End Statements.

(** ** Concrete inputs *)

Definition Qc_model_0 : DynamicModel Qc :=
  mkDynamicModel (mkUWVParameters SIMPLE Identity [MZero; MZero] zero3 zero3 1%Qc 1%Qc)
                 Identity.

(** An INTERMEDIATE parameter set that carries no damping matrix. *)
Definition intermediate_without_damping : UWVParameters Qc :=
  mkUWVParameters INTERMEDIATE Identity [] zero3 zero3 1%Qc 1%Qc.

(** A COMPLEX parameter set with the two matrices of the simple models. *)
Definition complex_with_two : UWVParameters Qc :=
  mkUWVParameters COMPLEX Identity [MZero; MZero] zero3 zero3 1%Qc 1%Qc.

Definition qc (n : Z) : Qc := Q2Qc (inject_Z n).

Definition Qc_vector (a b c d e f : Z) : Vector6d Qc :=
  mkVector6 (qc a) (qc b) (qc c) (qc d) (qc e) (qc f).

(** A coupled, invertible inertia matrix. *)
Definition Qc_inertia : Matrix6d Qc :=
  mkVector6 (Qc_vector 2 1 0 0 0 0) (Qc_vector 0 3 0 0 0 1) (Qc_vector 0 0 1 0 0 0)
            (Qc_vector 1 0 0 4 0 0) (Qc_vector 0 0 0 0 5 0) (Qc_vector 0 0 2 0 0 6).

(** A rank-one matrix, used as damping and as a singular inertia matrix. *)
Definition Qc_rank_one : Matrix6d Qc :=
  mkVector6 (Qc_vector 1 2 0 0 0 0) (Qc_vector 2 4 0 0 0 0) (Qc_vector 0 0 0 0 0 0)
            (Qc_vector 0 0 0 0 0 0) (Qc_vector 0 0 0 0 0 0) (Qc_vector 0 0 0 0 0 0).

Definition Qc_intermediate : UWVParameters Qc :=
  mkUWVParameters INTERMEDIATE Qc_inertia [Qc_rank_one; Identity]
                  (mkVector3 (qc 0) (qc 0) (qc 1)) (mkVector3 (qc 1) (qc 0) (qc 0))
                  (qc 30) (qc 28).

Definition Qc_complex : UWVParameters Qc :=
  mkUWVParameters COMPLEX Qc_inertia
                  [Identity; Qc_rank_one; Identity; MZero; Qc_inertia; Identity]
                  (mkVector3 (qc 0) (qc 0) (qc 1)) (mkVector3 (qc 1) (qc 0) (qc 0))
                  (qc 30) (qc 28).

Definition Qc_simple : UWVParameters Qc :=
  mkUWVParameters SIMPLE Qc_inertia [Qc_rank_one; Identity]
                  (mkVector3 (qc 0) (qc 0) (qc 1)) (mkVector3 (qc 1) (qc 0) (qc 0))
                  (qc 30) (qc 28).

(** Weight equal to buoyancy, centre of gravity equal to centre of buoyancy. *)
Definition Qc_neutral : UWVParameters Qc :=
  mkUWVParameters SIMPLE Qc_inertia [Qc_rank_one; Identity]
                  (mkVector3 (qc 1) (qc 2) (qc 3)) (mkVector3 (qc 1) (qc 2) (qc 3))
                  (qc 30) (qc 30).

(** The object after [setUWVParameters Qc_intermediate]. *)
Definition Qc_configured : DynamicModel Qc :=
  snd (setUWVParameters Qc_intermediate Qc_model_0).

Definition Qc_orientation : Quaternion Qc := mkQuaternion (qc 3) (qc 0) (qc 4) (qc 0).

(** Another object, configured otherwise than [Qc_model_0]. *)
Definition Qc_model_1 : DynamicModel Qc :=
  mkDynamicModel complex_with_two Qc_rank_one.

(** Neither weight nor buoyancy is positive. *)
Definition Qc_weightless : UWVParameters Qc :=
  mkUWVParameters INTERMEDIATE Qc_inertia [] zero3 zero3 (qc 0) (qc (-1)).

Definition Qc_vector3 (a b c : Z) : Vector3d Qc := mkVector3 (qc a) (qc b) (qc c).

(** IEEE inputs. *)
Definition float_vector (a b c d e f : float) : Vector6d float := mkVector6 a b c d e f.

Definition float_model : DynamicModel float :=
  mkDynamicModel
    (mkUWVParameters SIMPLE Identity [Identity; MZero]
                     (mkVector3 0 0 0)%float (mkVector3 0 0 0)%float 2%float 1%float)
    Identity.

(** An inertia matrix without a zero coefficient. *)
Definition float_model_dense : DynamicModel float :=
  mkDynamicModel
    (mkUWVParameters SIMPLE (const6 (const6 1%float)) [Identity; MZero]
                     (mkVector3 0 0 0)%float (mkVector3 0 0 0)%float 2%float 1%float)
    Identity.

(** Weight and buoyancy are NaN. *)
Definition float_nan_weight : UWVParameters float :=
  mkUWVParameters COMPLEX Identity [MZero; MZero; MZero; MZero; MZero; MZero]
                  (mkVector3 0 0 0)%float (mkVector3 0 0 0)%float
                  PrimFloat.nan PrimFloat.nan.

Definition nan_orientation : Quaternion float :=
  mkQuaternion PrimFloat.nan 0%float 0%float 0%float.
Definition infinite_orientation : Quaternion float :=
  mkQuaternion PrimFloat.infinity 0%float 0%float 0%float.
Definition unit_orientation : Quaternion float :=
  mkQuaternion 1%float 0%float 0%float 0%float.

(* ================================================================== *)
(** * Properties that hold over every scalar type *)

Lemma Vector6_ext {A} (a b : Vector6 A) :
  c0 a = c0 b -> c1 a = c1 b -> c2 a = c2 b ->
  c3 a = c3 b -> c4 a = c4 b -> c5 a = c5 b -> a = b.
Proof. destruct a, b; simpl; intros; subst; reflexivity. Qed.

Lemma Vector3_ext {A} (a b : Vector3 A) :
  vx a = vx b -> vy a = vy b -> vz a = vz b -> a = b.
Proof. destruct a, b; simpl; intros; subst; reflexivity. Qed.

Section Generic.
Context {T : Type} `{JacobiSVD T}.
Local Open Scope scalar_scope.

Implicit Types (p : UWVParameters T) (this : DynamicModel T)
         (v a u : Vector6d T) (R : Quaternion T).

(** ** The input checks *)

Lemma checkControlInput_Ok u : hasNaN u = false -> checkControlInput u = Ok tt.
Proof. unfold checkControlInput; intros ->; reflexivity. Qed.

Lemma checkVelocity_Ok v : hasNaN v = false -> checkVelocity v = Ok tt.
Proof. unfold checkVelocity; intros ->; reflexivity. Qed.

Lemma checkAcceleration_Ok a : hasNaN a = false -> checkAcceleration a = Ok tt.
Proof. unfold checkAcceleration; intros ->; reflexivity. Qed.

Lemma hasNaN_set_coeff v i x :
  (i < 6)%nat -> sisnan x = true -> hasNaN (set_coeff v i x) = true.
Proof.
  intros Hi Hx.
  do 6 (destruct i as [|i]; [unfold hasNaN; simpl; rewrite Hx;
                             repeat rewrite orb_true_r; reflexivity|]).
  exfalso. repeat apply PeanoNat.lt_S_n in Hi. inversion Hi.
Qed.

(** What [checkParameters] tests, read off the four [if]s of the source. *)
Lemma checkParameters_Ok_iff p :
  checkParameters p = Ok tt <->
  (model_type p = SIMPLE -> List.length (damping_matrices p) = 2%nat) /\
  (model_type p = COMPLEX -> List.length (damping_matrices p) = 6%nat) /\
  (weight p <=? s0) = false /\ (buoyancy p <=? s0) = false.
Proof.
  unfold checkParameters.
  destruct (model_type p) eqn:Hm;
    destruct (Nat.eqb_spec (List.length (damping_matrices p)) 2) as [E2|E2];
    destruct (Nat.eqb_spec (List.length (damping_matrices p)) 6) as [E6|E6];
    destruct (weight p <=? s0); destruct (buoyancy p <=? s0); simpl;
    (split; [ try discriminate; intros _; repeat split; try discriminate; auto
            | intros (H1 & H2 & H3 & H4); try discriminate; try reflexivity;
              exfalso; auto ]).
Qed.

Lemma checkParameters_invalid_argument p e :
  checkParameters p = Throw e -> exists what, e = invalid_argument what.
Proof.
  unfold checkParameters.
  repeat match goal with
         | |- context [if ?b then _ else _] => destruct b
         end; intros E; inversion E; eauto.
Qed.

(** ** [setUWVParameters] *)

Lemma setUWVParameters_eq parameters this :
  setUWVParameters parameters this =
  match checkParameters parameters with
  | Ok _ => (Ok tt, mkDynamicModel parameters
                                   (calcInvInertiaMatrix (inertia_matrix parameters)))
  | Throw e => (Throw e, this)
  end.
Proof.
  unfold setUWVParameters, seq_method, call.
  destruct (checkParameters parameters); reflexivity.
Qed.

Lemma setUWVParameters_Ok parameters this this' :
  setUWVParameters parameters this = (Ok tt, this') ->
  uwv_parameters this' = parameters /\
  invert_inertia_matrix this' = calcInvInertiaMatrix (inertia_matrix parameters).
Proof.
  rewrite setUWVParameters_eq.
  destruct (checkParameters parameters) as [[]|e]; intros E; inversion E; subst.
  split; reflexivity.
Qed.

(** ** The dispatch on the fidelity *)

Lemma caclSimpleDamping_two (D0 D1 : Matrix6d T) v :
  caclSimpleDamping [D0; D1] v =
  Ok (add6 (mulv D0 v) (mulv (mul_asDiagonal D1 (cwiseAbs v)) v)).
Proof. reflexivity. Qed.

Lemma caclSimpleDamping_Throw (l : list (Matrix6d T)) v :
  List.length l <> 2%nat ->
  caclSimpleDamping l v = Throw (runtime_error "dampMatrices does not have 2 elements.").
Proof.
  intros Hl. unfold caclSimpleDamping.
  destruct (Nat.eqb_spec (List.length l) 2); [contradiction | reflexivity].
Qed.

Lemma caclGeneralQuadDamping_Throw (l : list (Matrix6d T)) v :
  List.length l <> 6%nat ->
  caclGeneralQuadDamping l v =
  Throw (runtime_error "quadDampMatrices does not have 6 elements.").
Proof.
  intros Hl. unfold caclGeneralQuadDamping.
  destruct (Nat.eqb_spec (List.length l) 6); [contradiction | reflexivity].
Qed.

Lemma calcDampingAndCoriolisEffect_returns p v :
  List.length (damping_matrices p) = damping_count (model_type p) ->
  exists d, calcDampingAndCoriolisEffect p v = Ok d.
Proof.
  unfold calcDampingAndCoriolisEffect, caclSimpleDamping, caclGeneralQuadDamping.
  destruct (model_type p); simpl; intros ->; simpl; eauto.
Qed.

Lemma calcDampingAndCoriolisEffect_throws p v :
  List.length (damping_matrices p) <> damping_count (model_type p) ->
  exists what, calcDampingAndCoriolisEffect p v = Throw (runtime_error what).
Proof.
  unfold calcDampingAndCoriolisEffect.
  destruct (model_type p); simpl; intros Hl.
  - rewrite caclSimpleDamping_Throw by assumption; eauto.
  - rewrite caclGeneralQuadDamping_Throw by assumption; simpl; eauto.
  - rewrite caclSimpleDamping_Throw by assumption; simpl; eauto.
Qed.

(** ** The two evaluations on checked inputs *)

Lemma calcAcceleration_checked this u v R :
  hasNaN u = false -> hasNaN v = false ->
  calcAcceleration this u v R =
  (d <- calcDampingAndCoriolisEffect (uwv_parameters this) v ;;
   Ok (mulv (invert_inertia_matrix this)
            (sub6 (sub6 u (calcGravityBuoyancy R (uwv_parameters this))) d))).
Proof.
  intros Hu Hv. unfold calcAcceleration.
  rewrite (checkControlInput_Ok _ Hu), (checkVelocity_Ok _ Hv). reflexivity.
Qed.

Lemma calcEfforts_checked this a v R :
  hasNaN a = false -> hasNaN v = false ->
  calcEfforts this a v R =
  (d <- calcDampingAndCoriolisEffect (uwv_parameters this) v ;;
   Ok (add6 (add6 (mulv (inertia_matrix (uwv_parameters this)) a)
                  (calcGravityBuoyancy R (uwv_parameters this))) d)).
Proof.
  intros Ha Hv. unfold calcEfforts.
  rewrite (checkAcceleration_Ok _ Ha), (checkVelocity_Ok _ Hv). reflexivity.
Qed.

End Generic.

Section EveryScalar.
Context {T : Type} `{JacobiSVD T}.
Local Open Scope scalar_scope.

Implicit Types (p : UWVParameters T) (this : DynamicModel T)
         (v a u : Vector6d T) (R : Quaternion T).

(** C2 - Equation of motion.  On inputs without NaN, [calcAcceleration]
    is [invert_inertia_matrix * (control_input - gravityBuoyancy -
    dampingAndCoriolis)] and [calcEfforts] is [inertia_matrix * acceleration
    + gravityBuoyancy + dampingAndCoriolis], built from the shared
    sub-computations [calcGravityBuoyancy] and
    [calcDampingAndCoriolisEffect]; an exception of the latter is the
    exception of the call. *)
Theorem equation_of_motion this u a v R :
  hasNaN v = false ->
  let p := uwv_parameters this in
  let g := calcGravityBuoyancy R p in
  match calcDampingAndCoriolisEffect p v with
  | Ok d =>
      (hasNaN u = false ->
       calcAcceleration this u v R =
       Ok (mulv (invert_inertia_matrix this) (sub6 (sub6 u g) d))) /\
      (hasNaN a = false ->
       calcEfforts this a v R =
       Ok (add6 (add6 (mulv (inertia_matrix p) a) g) d))
  | Throw e =>
      (hasNaN u = false -> calcAcceleration this u v R = Throw e) /\
      (hasNaN a = false -> calcEfforts this a v R = Throw e)
  end.
Proof.
  intros Hv p g.
  destruct (calcDampingAndCoriolisEffect p v) as [d|e] eqn:Hd; split; intros Hx.
  - rewrite calcAcceleration_checked by assumption. fold p. rewrite Hd. reflexivity.
  - rewrite calcEfforts_checked by assumption. fold p. rewrite Hd. reflexivity.
  - rewrite calcAcceleration_checked by assumption. fold p. rewrite Hd. reflexivity.
  - rewrite calcEfforts_checked by assumption. fold p. rewrite Hd. reflexivity.
Qed.

(** C4 - Fidelity dispatch.  With the damping matrices [D0; D1], SIMPLE
    gives [D0 v + D1 diag(|v|) v] and no Coriolis term, INTERMEDIATE adds
    the Coriolis term to that sum; with [D0; ...; D5], COMPLEX gives the
    Coriolis term plus [(sum_i Di |v_i|) v].  When the number of damping
    matrices is not the one the fidelity reads (2, 2 and 6) the evaluation
    throws the runtime error of the damping routine it calls. *)
Theorem fidelity_dispatch p v :
  let M := inertia_matrix p in
  let n := List.length (damping_matrices p) in
  (forall D0 D1, damping_matrices p = [D0; D1] ->
     let damping := add6 (mulv D0 v) (mulv (mul_asDiagonal D1 (cwiseAbs v)) v) in
     (model_type p = SIMPLE -> calcDampingAndCoriolisEffect p v = Ok damping) /\
     (model_type p = INTERMEDIATE ->
      calcDampingAndCoriolisEffect p v = Ok (add6 (calcCoriolisEffect M v) damping))) /\
  (forall D0 D1 D2 D3 D4 D5, damping_matrices p = [D0; D1; D2; D3; D4; D5] ->
     model_type p = COMPLEX ->
     let sum :=
       madd (madd (madd (madd (madd (madd MZero
         (mscale D0 (sabs (c0 v)))) (mscale D1 (sabs (c1 v))))
         (mscale D2 (sabs (c2 v)))) (mscale D3 (sabs (c3 v))))
         (mscale D4 (sabs (c4 v)))) (mscale D5 (sabs (c5 v))) in
     calcDampingAndCoriolisEffect p v = Ok (add6 (calcCoriolisEffect M v) (mulv sum v))) /\
  (model_type p = SIMPLE \/ model_type p = INTERMEDIATE -> n <> 2%nat ->
     calcDampingAndCoriolisEffect p v =
     Throw (runtime_error "dampMatrices does not have 2 elements.")) /\
  (model_type p = COMPLEX -> n <> 6%nat ->
     calcDampingAndCoriolisEffect p v =
     Throw (runtime_error "quadDampMatrices does not have 6 elements.")).
Proof.
  intros M n. unfold calcDampingAndCoriolisEffect.
  split; [|split; [|split]].
  - intros D0 D1 HD. cbv zeta. split; intros ->; rewrite HD; reflexivity.
  - intros D0 D1 D2 D3 D4 D5 HD. cbv zeta. intros ->. rewrite HD. reflexivity.
  - intros [-> | ->] Hn; rewrite caclSimpleDamping_Throw by assumption; reflexivity.
  - intros -> Hn. rewrite caclGeneralQuadDamping_Throw by assumption. reflexivity.
Qed.

(** C6 - Atomicity of configuration.  When [setUWVParameters] throws, the
    exception is an [invalid_argument] and the object is the one before the
    call: same parameter set (as [getUWVParameters] shows) and same cached
    inverse inertia matrix.  When it returns, the parameter set is the new
    one and the cached matrix is the one computed from its inertia matrix.
    A COMPLEX parameter set with two damping matrices is an instance of the
    first case. *)
Theorem setUWVParameters_atomic parameters this :
  (forall e this', setUWVParameters parameters this = (Throw e, this') ->
     this' = this /\
     getUWVParameters this' = getUWVParameters this /\
     invert_inertia_matrix this' = invert_inertia_matrix this /\
     exists what, e = invalid_argument what) /\
  (forall this', setUWVParameters parameters this = (Ok tt, this') ->
     getUWVParameters this' = parameters /\
     invert_inertia_matrix this' = calcInvInertiaMatrix (inertia_matrix parameters)) /\
  (model_type parameters = COMPLEX ->
   List.length (damping_matrices parameters) = 2%nat ->
   exists what, setUWVParameters parameters this = (Throw (invalid_argument what), this)).
Proof.
  rewrite setUWVParameters_eq. split; [|split].
  - intros e this' Hset.
    destruct (checkParameters parameters) as [[]|e'] eqn:E; inversion Hset; subst.
    repeat split. eapply checkParameters_invalid_argument; eassumption.
  - intros this' Hset.
    destruct (checkParameters parameters) as [[]|e']; inversion Hset; subst.
    split; reflexivity.
  - intros Hm Hl. unfold checkParameters. rewrite Hm, Hl. simpl. eauto.
Qed.

(** C7 - NaN input rejection.  [calcAcceleration] throws the runtime error
    of [checkControlInput] when the control input has a NaN, and that of
    [checkVelocity] when the velocity has one - in particular when a NaN is
    put at any of the six positions of the velocity; [calcEfforts] does the
    same for the acceleration and the velocity.  The exception does not
    depend on the object, the orientation or the other vector: the checks
    come before the computation. *)
Theorem NaN_inputs_rejected this u a v R :
  (hasNaN u = true ->
   calcAcceleration this u v R =
   Throw (runtime_error "DynamicModel checkControlInput: control input is unset")) /\
  (hasNaN u = false -> hasNaN v = true ->
   calcAcceleration this u v R =
   Throw (runtime_error "DynamicModel checkVelocity: velocity is unset")) /\
  (forall i x, (i < 6)%nat -> sisnan x = true -> hasNaN u = false ->
   calcAcceleration this u (set_coeff v i x) R =
   Throw (runtime_error "DynamicModel checkVelocity: velocity is unset")) /\
  (hasNaN a = true ->
   calcEfforts this a v R =
   Throw (runtime_error "DynamicModel checkAcceleration: acceleration is unset")) /\
  (hasNaN a = false -> hasNaN v = true ->
   calcEfforts this a v R =
   Throw (runtime_error "DynamicModel checkVelocity: velocity is unset")).
Proof.
  unfold calcAcceleration, calcEfforts, checkControlInput, checkVelocity,
    checkAcceleration.
  repeat split.
  - intros ->. reflexivity.
  - intros -> ->. reflexivity.
  - intros i x Hi Hx ->. rewrite hasNaN_set_coeff by assumption. reflexivity.
  - intros ->. reflexivity.
  - intros -> ->. reflexivity.
Qed.

(** C9 - The inertia matrix is not inspected.  The outcome of
    [checkParameters] is the same whatever the inertia matrix; so when the
    damping count, the weight and the buoyancy pass, [setUWVParameters]
    accepts the parameter set with any inertia matrix [m], the zero matrix
    included, and caches the least-squares solution of [m x = Identity]
    that the decomposition returns. *)
Theorem inertia_matrix_not_inspected p m this :
  checkParameters (with_inertia_matrix p m) = checkParameters p /\
  (checkParameters p = Ok tt ->
   setUWVParameters (with_inertia_matrix p m) this =
   (Ok tt, mkDynamicModel (with_inertia_matrix p m) (svd_solve m Identity)) /\
   setUWVParameters (with_inertia_matrix p MZero) this =
   (Ok tt, mkDynamicModel (with_inertia_matrix p MZero) (svd_solve MZero Identity))).
Proof.
  assert (E : forall m', checkParameters (with_inertia_matrix p m') = checkParameters p)
    by reflexivity.
  split; [apply E|]. intros Hp.
  split; rewrite setUWVParameters_eq, E, Hp; reflexivity.
Qed.

End EveryScalar.

(* ================================================================== *)
(** * Properties of exact arithmetic *)

(** The scalars form a commutative ring and none of them is a NaN: the
    reals, and the rationals [Qc] on which the definitions run. *)
Section Exact.
Context {T : Type} `{JacobiSVD T}.
Local Open Scope scalar_scope.

Hypothesis scalar_ring : ring_theory s0 s1 sadd smul ssub sopp (@eq T).
Hypothesis no_NaN : forall x : T, sisnan x = false.

Add Ring scalar_ring_db : scalar_ring.

Implicit Types (p : UWVParameters T) (this : DynamicModel T)
         (v a u : Vector6d T) (R : Quaternion T).

Ltac by_components :=
  repeat match goal with
         | x : Matrix6d _ |- _ => destruct x
         | x : Vector6d _ |- _ => destruct x
         | x : Vector6 _ |- _ => destruct x
         | x : Vector3d _ |- _ => destruct x
         | x : Vector3 _ |- _ => destruct x
         | x : Quaternion _ |- _ => destruct x
         end;
  cbv [mulv mmul transpose col dot6 map6 zip6 map3 zip3 add6 sub6 opp6 add3 sub3
       scale3 cross join3 head3 tail3 const6 Zero6 MZero zero3 Identity
       mul_asDiagonal asDiagonal rotate vec qw qx qy qz
       c0 c1 c2 c3 c4 c5 vx vy vz];
  repeat (f_equal; try ring).

Lemma hasNaN_false v : hasNaN v = false.
Proof. unfold hasNaN. rewrite !no_NaN. reflexivity. Qed.

Lemma mulv_mmul (A B : Matrix6d T) v : mulv (mmul A B) v = mulv A (mulv B v).
Proof. by_components. Qed.

Lemma mulv_Identity v : mulv Identity v = v.
Proof. by_components. Qed.

Lemma mulv_Zero6 (A : Matrix6d T) : mulv A Zero6 = Zero6.
Proof. by_components. Qed.

Lemma add6_sub6_cancel (x g d : Vector6d T) :
  sub6 (sub6 (add6 (add6 x g) d) g) d = x.
Proof. by_components. Qed.

Lemma mul_asDiagonal_dense (D : Matrix6d T) (d : Vector6d T) :
  mul_asDiagonal D d = mmul D (asDiagonal d).
Proof. by_components. Qed.

Lemma cross_zero_l (b : Vector3d T) : cross zero3 b = zero3.
Proof. by_components. Qed.

Lemma rotate_zero R : rotate R zero3 = zero3.
Proof. by_components. Qed.

Lemma calcCoriolisEffect_Zero6 (M : Matrix6d T) : calcCoriolisEffect M Zero6 = Zero6.
Proof. unfold calcCoriolisEffect. rewrite mulv_Zero6. by_components. Qed.

(** The round trip on every parameter set whose damping matrices are as
    many as the evaluation of its fidelity reads: once [setUWVParameters]
    has accepted it and the cached matrix is a left inverse of the inertia
    matrix, [calcAcceleration] undoes [calcEfforts]. *)
Theorem roundtrip_inverse parameters this0 this1 a v R :
  setUWVParameters parameters this0 = (Ok tt, this1) ->
  mmul (invert_inertia_matrix this1) (inertia_matrix parameters) = Identity ->
  List.length (damping_matrices parameters) = damping_count (model_type parameters) ->
  roundtrip this1 a v R = Ok a.
Proof.
  intros Hset Hinv Hlen.
  destruct (setUWVParameters_Ok _ _ Hset) as [Hp _].
  unfold roundtrip.
  rewrite calcEfforts_checked by apply hasNaN_false.
  rewrite Hp.
  destruct (calcDampingAndCoriolisEffect_returns parameters v Hlen) as [d Hd].
  rewrite Hd. simpl.
  rewrite calcAcceleration_checked by apply hasNaN_false.
  rewrite Hp, Hd. simpl.
  rewrite add6_sub6_cancel, <- mulv_mmul, Hinv, mulv_Identity. reflexivity.
Qed.

(** C5 - Coriolis/centripetal term.  With [p = M v], the term is the
    negation of [p.linear x v.angular ; p.linear x v.linear + p.angular x
    v.angular], written out below coefficient by coefficient as well; it is
    the zero vector at the zero velocity, for every inertia matrix. *)
Theorem coriolis_term (M : Matrix6d T) v :
  let p := mulv M v in
  calcCoriolisEffect M v =
    opp6 (join3 (cross (head3 p) (tail3 v))
                (add3 (cross (head3 p) (head3 v)) (cross (tail3 p) (tail3 v)))) /\
  calcCoriolisEffect M v =
    mkVector6
      (- (c1 p * c5 v - c2 p * c4 v))
      (- (c2 p * c3 v - c0 p * c5 v))
      (- (c0 p * c4 v - c1 p * c3 v))
      (- ((c1 p * c2 v - c2 p * c1 v) + (c4 p * c5 v - c5 p * c4 v)))
      (- ((c2 p * c0 v - c0 p * c2 v) + (c5 p * c3 v - c3 p * c5 v)))
      (- ((c0 p * c1 v - c1 p * c0 v) + (c3 p * c4 v - c4 p * c3 v))) /\
  calcCoriolisEffect M Zero6 = Zero6.
Proof.
  intros p. split; [reflexivity | split; [reflexivity | apply calcCoriolisEffect_Zero6]].
Qed.

(** C8 - Neutral restoring identity.  When the weight equals the buoyancy
    and the centre of gravity equals the centre of buoyancy, the
    gravity/buoyancy term is the zero 6-vector, for every orientation. *)
Theorem neutral_restoring R p :
  weight p = buoyancy p ->
  distance_body2centerofgravity p = distance_body2centerofbuoyancy p ->
  calcGravityBuoyancy R p = Zero6 /\
  calcGravityBuoyancy5 R (weight p) (buoyancy p)
                       (distance_body2centerofgravity p)
                       (distance_body2centerofbuoyancy p) = Zero6.
Proof.
  intros HW Hc. unfold calcGravityBuoyancy. rewrite HW, Hc.
  set (B := buoyancy p). set (cb := distance_body2centerofbuoyancy p).
  assert (E : calcGravityBuoyancy5 R B B cb cb = Zero6).
  { unfold calcGravityBuoyancy5.
    replace (mkVector3 s0 s0 (B - B)) with (zero3 (T := T))
      by (unfold zero3; f_equal; ring).
    rewrite rotate_zero.
    replace (sub3 (scale3 cb B) (scale3 cb B)) with (zero3 (T := T))
      by (clearbody cb B; by_components).
    rewrite cross_zero_l. reflexivity. }
  split; exact E.
Qed.

End Exact.

(* ================================================================== *)
(** * Evaluations at concrete inputs *)

Ltac Qc_entries :=
  repeat (apply Vector6_ext); apply Qc_is_canon; vm_compute; reflexivity.

Lemma Qc_ring : ring_theory (s0 (T := Qc)) s1 sadd smul ssub sopp eq.
Proof. exact Qcrt. Qed.

Lemma Qc_no_NaN (x : Qc) : sisnan x = false.
Proof. reflexivity. Qed.

(** C3 - Parameter validation.  The parameter set
    [intermediate_without_damping] has the INTERMEDIATE fidelity and no
    damping matrix, yet [setUWVParameters] accepts it on every object; the
    same set with the SIMPLE fidelity is rejected with the configuration
    error for the damping count. *)
Theorem intermediate_count_not_validated (this : DynamicModel Qc) :
  let p := intermediate_without_damping in
  model_type p = INTERMEDIATE /\
  List.length (damping_matrices p) <> 2%nat /\
  setUWVParameters p this =
    (Ok tt, mkDynamicModel p (calcInvInertiaMatrix (inertia_matrix p))) /\
  setUWVParameters
    (mkUWVParameters SIMPLE (inertia_matrix p) (damping_matrices p)
                     (distance_body2centerofbuoyancy p)
                     (distance_body2centerofgravity p) (weight p) (buoyancy p)) this =
    (Throw (invalid_argument "in SIMPLE model, damping_matrices should have two elements, the linear damping matrix and quadratic damping matrix"), this).
Proof.
  intros p.
  split; [reflexivity|]. split; [simpl; discriminate|].
  split; rewrite setUWVParameters_eq; reflexivity.
Qed.

(** C1 - Round trip.  [setUWVParameters] accepts
    [intermediate_without_damping], whose inertia matrix is the identity and
    whose cached inverse is its two-sided inverse; on the configured object
    [calcEfforts] throws for every acceleration, velocity and orientation, so
    the round trip yields the exception of the damping routine and not the
    acceleration. *)
Theorem roundtrip_throws_on_accepted_intermediate
        (this : DynamicModel Qc) (a v : Vector6d Qc) (R : Quaternion Qc) :
  let p := intermediate_without_damping in
  let configured := snd (setUWVParameters p this) in
  fst (setUWVParameters p this) = Ok tt /\
  mmul (invert_inertia_matrix configured) (inertia_matrix p) = Identity /\
  mmul (inertia_matrix p) (invert_inertia_matrix configured) = Identity /\
  hasNaN a = false /\ hasNaN v = false /\
  calcEfforts configured a v R =
    Throw (runtime_error "dampMatrices does not have 2 elements.") /\
  roundtrip configured a v R =
    Throw (runtime_error "dampMatrices does not have 2 elements.") /\
  roundtrip configured a v R <> Ok a.
Proof.
  intros p configured.
  assert (Hc : configured = mkDynamicModel p (calcInvInertiaMatrix (inertia_matrix p)))
    by reflexivity.
  assert (He : calcEfforts configured a v R =
               Throw (runtime_error "dampMatrices does not have 2 elements.")).
  { rewrite calcEfforts_checked by reflexivity. rewrite Hc. reflexivity. }
  split; [reflexivity|].
  split; [rewrite Hc; Qc_entries|].
  split; [rewrite Hc; Qc_entries|].
  split; [reflexivity|]. split; [reflexivity|].
  split; [exact He|].
  unfold roundtrip. rewrite He. split; [reflexivity | discriminate].
Qed.

(** C10 - The orientation is not validated.  Over every scalar type, once
    the two vectors of a call have no NaN, an exception of the call does not
    depend on the orientation, and when the damping matrices are as many as
    the fidelity reads the call returns a vector for every orientation.  In
    IEEE arithmetic: a call with a NaN in the orientation returns; calls with
    an infinite orientation or an infinite velocity coefficient return
    vectors that hold NaN; a call with an infinite acceleration coefficient
    returns a vector of infinities. *)
Theorem orientation_not_validated :
  (forall (T : Type) (ST : Scalar T) (this : DynamicModel T)
          (u a v : Vector6d T) (R : Quaternion T),
      hasNaN v = false ->
      ((hasNaN u = false ->
        forall e R', calcAcceleration this u v R = Throw e ->
                     calcAcceleration this u v R' = Throw e) /\
       (hasNaN a = false ->
        forall e R', calcEfforts this a v R = Throw e ->
                     calcEfforts this a v R' = Throw e)) /\
      (List.length (damping_matrices (uwv_parameters this)) =
       damping_count (model_type (uwv_parameters this)) ->
       (hasNaN u = false -> exists r, calcAcceleration this u v R = Ok r) /\
       (hasNaN a = false -> exists r, calcEfforts this a v R = Ok r))) /\
  (let z := float_vector 0 0 0 0 0 0 in
   let vi := float_vector infinity 0 0 0 0 0 in
   hasNaN z = false /\ hasNaN vi = false /\
   sisnan (qw nan_orientation) = true /\
   (exists r, calcAcceleration float_model z z nan_orientation = Ok r) /\
   (exists r, calcEfforts float_model z z nan_orientation = Ok r) /\
   (exists r, calcAcceleration float_model z z infinite_orientation = Ok r /\
              hasNaN r = true) /\
   (exists r, calcEfforts float_model z z infinite_orientation = Ok r /\
              hasNaN r = true) /\
   (exists r, calcAcceleration float_model z vi unit_orientation = Ok r /\
              hasNaN r = true) /\
   (exists r, calcEfforts float_model z vi unit_orientation = Ok r /\
              hasNaN r = true) /\
   calcEfforts float_model_dense vi z unit_orientation = Ok (const6 infinity)).
Proof.
  split.
  - intros T ST this u a v R Hv. split; [split|].
    + intros Hu e R'. rewrite !calcAcceleration_checked by assumption.
      destruct (calcDampingAndCoriolisEffect (uwv_parameters this) v);
        simpl; [discriminate | trivial].
    + intros Ha e R'. rewrite !calcEfforts_checked by assumption.
      destruct (calcDampingAndCoriolisEffect (uwv_parameters this) v);
        simpl; [discriminate | trivial].
    + intros Hlen.
      destruct (calcDampingAndCoriolisEffect_returns (uwv_parameters this) v Hlen)
        as [d Hd].
      split; intros Hx.
      * rewrite calcAcceleration_checked, Hd by assumption. simpl. eauto.
      * rewrite calcEfforts_checked, Hd by assumption. simpl. eauto.
  - cbv zeta. repeat split; try (eexists; split); vm_compute; reflexivity.
Qed.

(* ================================================================== *)
(** * Instances of the theorems *)

(** The exact solver on the singular matrix [Qc_rank_one]: the four Penrose
    equations that characterise the Moore-Penrose inverse. *)
Example pinv_rank_one_Penrose :
  let A := Qc_rank_one in
  let P := Greville.pinv A in
  mmul (mmul A P) A = A /\ mmul (mmul P A) P = P /\
  transpose (mmul A P) = mmul A P /\ transpose (mmul P A) = mmul P A.
Proof. cbv zeta. repeat split; Qc_entries. Qed.

(** The equation of motion on the configured rational model. *)
Lemma equation_of_motion_witness :
  let u := Qc_vector 1 2 3 4 5 6 in
  let a := Qc_vector 6 5 4 3 2 1 in
  let v := Qc_vector 1 (-2) 3 (-4) 5 (-6) in
  let p := uwv_parameters Qc_configured in
  let g := calcGravityBuoyancy Qc_orientation p in
  hasNaN u = false /\ hasNaN a = false /\ hasNaN v = false /\
  exists d,
    calcDampingAndCoriolisEffect p v = Ok d /\
    calcAcceleration Qc_configured u v Qc_orientation =
      Ok (mulv (invert_inertia_matrix Qc_configured) (sub6 (sub6 u g) d)) /\
    calcEfforts Qc_configured a v Qc_orientation =
      Ok (add6 (add6 (mulv (inertia_matrix p) a) g) d).
Proof.
  intros u a v p g.
  split; [reflexivity|]. split; [reflexivity|]. split; [reflexivity|].
  pose proof (equation_of_motion Qc_configured u a v Qc_orientation eq_refl) as E.
  cbv zeta in E. fold p g in E.
  destruct (calcDampingAndCoriolisEffect_returns p v eq_refl) as [d Hd].
  rewrite Hd in E. destruct E as [E1 E2].
  exists d. split; [exact Hd|]. split; [apply E1 | apply E2]; reflexivity.
Defined.

(** The three fidelities and the two count errors. *)
Lemma fidelity_dispatch_witness :
  let v := Qc_vector 1 (-2) 3 (-4) 5 (-6) in
  let damping :=
    add6 (mulv Qc_rank_one v) (mulv (mul_asDiagonal Identity (cwiseAbs v)) v) in
  calcDampingAndCoriolisEffect Qc_simple v = Ok damping /\
  calcDampingAndCoriolisEffect Qc_intermediate v =
    Ok (add6 (calcCoriolisEffect Qc_inertia v) damping) /\
  calcDampingAndCoriolisEffect Qc_complex v =
    Ok (add6 (calcCoriolisEffect Qc_inertia v)
             (mulv (madd (madd (madd (madd (madd (madd MZero
                (mscale Identity (sabs (c0 v)))) (mscale Qc_rank_one (sabs (c1 v))))
                (mscale Identity (sabs (c2 v)))) (mscale MZero (sabs (c3 v))))
                (mscale Qc_inertia (sabs (c4 v)))) (mscale Identity (sabs (c5 v)))) v)) /\
  calcDampingAndCoriolisEffect intermediate_without_damping v =
    Throw (runtime_error "dampMatrices does not have 2 elements.") /\
  calcDampingAndCoriolisEffect complex_with_two v =
    Throw (runtime_error "quadDampMatrices does not have 6 elements.").
Proof.
  intros v damping.
  split; [| split; [| split; [| split]]].
  - destruct (fidelity_dispatch Qc_simple v) as (Hs & _).
    apply (Hs Qc_rank_one Identity eq_refl). reflexivity.
  - destruct (fidelity_dispatch Qc_intermediate v) as (Hs & _).
    apply (Hs Qc_rank_one Identity eq_refl). reflexivity.
  - destruct (fidelity_dispatch Qc_complex v) as (_ & Hc & _).
    apply (Hc Identity Qc_rank_one Identity MZero Qc_inertia Identity eq_refl).
    reflexivity.
  - destruct (fidelity_dispatch intermediate_without_damping v) as (_ & _ & H2 & _).
    apply H2; [right; reflexivity | simpl; discriminate].
  - destruct (fidelity_dispatch complex_with_two v) as (_ & _ & _ & H6).
    apply H6; [reflexivity | simpl; discriminate].
Defined.

(** The Coriolis term of a coupled rational inertia matrix. *)
Lemma coriolis_term_witness :
  let v := Qc_vector 1 (-2) 3 (-4) 5 (-6) in
  let p := mulv Qc_inertia v in
  calcCoriolisEffect Qc_inertia v =
    opp6 (join3 (cross (head3 p) (tail3 v))
                (add3 (cross (head3 p) (head3 v)) (cross (tail3 p) (tail3 v)))) /\
  calcCoriolisEffect Qc_inertia Zero6 = Zero6.
Proof.
  intros v p.
  destruct (coriolis_term Qc_ring Qc_inertia v) as (H1 & _ & H3).
  split; [exact H1 | exact H3].
Defined.

(** A rejected and an accepted update of [Qc_model_0]. *)
Lemma setUWVParameters_atomic_witness :
  (exists what,
     setUWVParameters complex_with_two Qc_model_0 =
       (Throw (invalid_argument what), Qc_model_0)) /\
  getUWVParameters (snd (setUWVParameters complex_with_two Qc_model_0)) =
    getUWVParameters Qc_model_0 /\
  invert_inertia_matrix (snd (setUWVParameters complex_with_two Qc_model_0)) =
    invert_inertia_matrix Qc_model_0 /\
  getUWVParameters Qc_configured = Qc_intermediate /\
  invert_inertia_matrix Qc_configured = calcInvInertiaMatrix Qc_inertia.
Proof.
  destruct (setUWVParameters_atomic complex_with_two Qc_model_0) as (Hthrow & _ & Hex).
  destruct (Hex eq_refl eq_refl) as [what Hwhat].
  destruct (Hthrow _ _ Hwhat) as (_ & Hp & Hi & _).
  destruct (setUWVParameters_atomic Qc_intermediate Qc_model_0) as (_ & Hok & _).
  destruct (Hok Qc_configured eq_refl) as [Hp' Hi'].
  split; [exists what; exact Hwhat|].
  rewrite Hwhat. simpl. repeat split; assumption.
Defined.

(** A NaN at position 0 of the control input, at each position of the
    velocity, and at position 5 of the acceleration, in IEEE arithmetic. *)
Lemma NaN_inputs_rejected_witness :
  let z := float_vector 0 0 0 0 0 0 in
  let n := float_vector nan 0 0 0 0 0 in
  let n' := float_vector 0 0 0 0 0 nan in
  calcAcceleration float_model n z unit_orientation =
    Throw (runtime_error "DynamicModel checkControlInput: control input is unset") /\
  calcAcceleration float_model z n' unit_orientation =
    Throw (runtime_error "DynamicModel checkVelocity: velocity is unset") /\
  Forall (fun i =>
     calcAcceleration float_model z (set_coeff z i nan) unit_orientation =
       Throw (runtime_error "DynamicModel checkVelocity: velocity is unset"))
    [0; 1; 2; 3; 4; 5]%nat /\
  calcEfforts float_model n' z unit_orientation =
    Throw (runtime_error "DynamicModel checkAcceleration: acceleration is unset") /\
  calcEfforts float_model z n unit_orientation =
    Throw (runtime_error "DynamicModel checkVelocity: velocity is unset").
Proof.
  intros z n n'.
  destruct (NaN_inputs_rejected float_model n n' z unit_orientation)
    as (H1 & _ & _ & H4 & _).
  destruct (NaN_inputs_rejected float_model z z n' unit_orientation)
    as (_ & H2 & _).
  destruct (NaN_inputs_rejected float_model z z z unit_orientation)
    as (_ & _ & H3 & _).
  destruct (NaN_inputs_rejected float_model z z n unit_orientation)
    as (_ & _ & _ & _ & H5).
  split; [apply H1; reflexivity|].
  split; [apply H2; reflexivity|].
  split.
  { repeat (apply Forall_cons;
            [apply H3; [apply PeanoNat.Nat.ltb_lt | |]; reflexivity|]).
    apply Forall_nil. }
  split; [apply H4; reflexivity | apply H5; reflexivity].
Defined.

(** A neutrally buoyant rational parameter set under a non-unit orientation. *)
Lemma neutral_restoring_witness :
  weight Qc_neutral = buoyancy Qc_neutral /\
  distance_body2centerofgravity Qc_neutral = distance_body2centerofbuoyancy Qc_neutral /\
  calcGravityBuoyancy Qc_orientation Qc_neutral = Zero6.
Proof.
  split; [reflexivity|]. split; [reflexivity|].
  apply (neutral_restoring Qc_ring Qc_orientation Qc_neutral eq_refl eq_refl).
Defined.

(** A singular and the zero inertia matrix are accepted; the cached matrix
    of the zero inertia matrix is the zero matrix. *)
Lemma inertia_matrix_not_inspected_witness :
  checkParameters Qc_intermediate = Ok tt /\
  setUWVParameters (with_inertia_matrix Qc_intermediate Qc_rank_one) Qc_model_0 =
    (Ok tt, mkDynamicModel (with_inertia_matrix Qc_intermediate Qc_rank_one)
                           (svd_solve Qc_rank_one Identity)) /\
  setUWVParameters (with_inertia_matrix Qc_intermediate MZero) Qc_model_0 =
    (Ok tt, mkDynamicModel (with_inertia_matrix Qc_intermediate MZero)
                           (svd_solve MZero Identity)) /\
  svd_solve (T := Qc) MZero Identity = MZero.
Proof.
  destruct (inertia_matrix_not_inspected Qc_intermediate Qc_rank_one Qc_model_0)
    as [_ Hset].
  destruct (Hset eq_refl) as [H1 H2].
  split; [reflexivity|]. split; [exact H1|]. split; [exact H2|].
  Qc_entries.
Defined.

(** The rational model under an arbitrary orientation. *)
Lemma orientation_not_validated_witness :
  let u := Qc_vector 1 2 3 4 5 6 in
  let v := Qc_vector 1 (-2) 3 (-4) 5 (-6) in
  (exists r, calcAcceleration Qc_configured u v Qc_orientation = Ok r) /\
  (exists r, calcEfforts Qc_configured u v Qc_orientation = Ok r).
Proof.
  intros u v.
  destruct orientation_not_validated as [Hall _].
  destruct (Hall Qc Qc_Scalar Qc_configured u u v Qc_orientation eq_refl)
    as [_ Hret].
  destruct (Hret eq_refl) as [Hacc Heff].
  split; [apply Hacc | apply Heff]; reflexivity.
Defined.

(** The round trip through a coupled inertia matrix and its computed inverse. *)
Lemma roundtrip_inverse_witness :
  let a := Qc_vector 6 5 4 3 2 1 in
  let v := Qc_vector 1 (-2) 3 (-4) 5 (-6) in
  setUWVParameters Qc_intermediate Qc_model_0 = (Ok tt, Qc_configured) /\
  mmul (invert_inertia_matrix Qc_configured) (inertia_matrix Qc_intermediate) = Identity /\
  roundtrip Qc_configured a v Qc_orientation = Ok a.
Proof.
  intros a v.
  assert (Hinv : mmul (invert_inertia_matrix Qc_configured)
                      (inertia_matrix Qc_intermediate) = Identity)
    by Qc_entries.
  split; [reflexivity|]. split; [exact Hinv|].
  apply (roundtrip_inverse Qc_ring Qc_no_NaN Qc_intermediate Qc_model_0);
    [reflexivity | exact Hinv | reflexivity].
Defined.

(* ================================================================== *)
(** * Further properties over every scalar type *)

Section Configuration.
Context {T : Type} `{JacobiSVD T}.
Local Open Scope scalar_scope.

Implicit Types (p q : UWVParameters T) (this : DynamicModel T)
         (v a u : Vector6d T) (R : Quaternion T).

(** X1 - Validation covers the evaluation of the SIMPLE and COMPLEX
    fidelities: on an object configured by an accepted parameter set of one
    of these two, [calcAcceleration] and [calcEfforts] return a vector on
    every input without NaN; the count tests of the damping routines cannot
    fire. *)
Theorem accepted_simple_complex_evaluate parameters this0 this1 u a v R :
  setUWVParameters parameters this0 = (Ok tt, this1) ->
  model_type parameters <> INTERMEDIATE ->
  hasNaN v = false ->
  (hasNaN u = false -> exists r, calcAcceleration this1 u v R = Ok r) /\
  (hasNaN a = false -> exists r, calcEfforts this1 a v R = Ok r).
Proof.
  intros Hset Hm Hv.
  destruct (setUWVParameters_Ok _ _ Hset) as [Hp _].
  assert (Hchk : checkParameters parameters = Ok tt).
  { rewrite setUWVParameters_eq in Hset.
    destruct (checkParameters parameters) as [[]|e]; [reflexivity | discriminate]. }
  apply checkParameters_Ok_iff in Hchk. destruct Hchk as (H2 & H6 & _).
  assert (Hlen : List.length (damping_matrices parameters) =
                 damping_count (model_type parameters)).
  { destruct (model_type parameters); simpl; auto. contradiction Hm; reflexivity. }
  destruct (calcDampingAndCoriolisEffect_returns parameters v Hlen) as [d Hd].
  split; intros Hx.
  - rewrite calcAcceleration_checked, Hp, Hd by assumption. simpl. eauto.
  - rewrite calcEfforts_checked, Hp, Hd by assumption. simpl. eauto.
Qed.

(** X2 - When the two evaluations return.  [calcAcceleration] returns a
    vector exactly when neither the control input nor the velocity has a NaN
    and the damping matrices of the object are as many as its fidelity reads;
    likewise [calcEfforts] with the acceleration.  Whatever either one throws
    is a [runtime_error], never an [invalid_argument]. *)
Theorem evaluation_returns_iff this u a v R :
  let counted :=
    List.length (damping_matrices (uwv_parameters this)) =
    damping_count (model_type (uwv_parameters this)) in
  ((exists r, calcAcceleration this u v R = Ok r) <->
   hasNaN u = false /\ hasNaN v = false /\ counted) /\
  ((exists r, calcEfforts this a v R = Ok r) <->
   hasNaN a = false /\ hasNaN v = false /\ counted) /\
  (forall e, calcAcceleration this u v R = Throw e \/ calcEfforts this a v R = Throw e ->
             exists what, e = runtime_error what).
Proof.
  intros counted. unfold counted.
  destruct (PeanoNat.Nat.eq_dec
              (List.length (damping_matrices (uwv_parameters this)))
              (damping_count (model_type (uwv_parameters this)))) as [Hlen|Hlen].
  - destruct (calcDampingAndCoriolisEffect_returns (uwv_parameters this) v Hlen)
      as [d Hd].
    unfold calcAcceleration, calcEfforts, checkControlInput, checkVelocity,
      checkAcceleration.
    rewrite Hd.
    destruct (hasNaN u), (hasNaN a), (hasNaN v); simpl;
      (split; [|split]);
      try (split; [intros [r E]; try discriminate; auto
                  | intros (E1 & E2 & _); try discriminate; eauto]);
      intros e [E|E]; inversion E; eauto.
  - destruct (calcDampingAndCoriolisEffect_throws (uwv_parameters this) v Hlen)
      as [what Hd].
    unfold calcAcceleration, calcEfforts, checkControlInput, checkVelocity,
      checkAcceleration.
    rewrite Hd.
    destruct (hasNaN u), (hasNaN a), (hasNaN v); simpl;
      (split; [|split]);
      try (split; [intros [r E]; discriminate
                  | intros (E1 & E2 & E3); try discriminate; contradiction]);
      intros e [E|E]; inversion E; eauto.
Qed.

(** X3 - The outcome of [setUWVParameters], test by test.  A SIMPLE set
    whose count is not 2 gets the SIMPLE message and a COMPLEX set whose
    count is not 6 the COMPLEX message, whatever weight and buoyancy are;
    when the count test passes, a weight [<= 0] gets the weight message even
    if the buoyancy is [<= 0] too, and the buoyancy message needs a passing
    weight.  An INTERMEDIATE set passes the count tests with any number of
    damping matrices.  Every rejection leaves the object as it was. *)
Theorem setUWVParameters_outcome parameters this :
  let n := List.length (damping_matrices parameters) in
  let counted :=
    (model_type parameters = SIMPLE -> n = 2%nat) /\
    (model_type parameters = COMPLEX -> n = 6%nat) in
  (model_type parameters = SIMPLE -> n <> 2%nat ->
   setUWVParameters parameters this =
   (Throw (invalid_argument "in SIMPLE model, damping_matrices should have two elements, the linear damping matrix and quadratic damping matrix"), this)) /\
  (model_type parameters = COMPLEX -> n <> 6%nat ->
   setUWVParameters parameters this =
   (Throw (invalid_argument "in COMPLEX model, damping_matrices should have six elements, one quadratic damping matrix / DOF"), this)) /\
  (counted -> (weight parameters <=? s0) = true ->
   setUWVParameters parameters this =
   (Throw (invalid_argument "weight must be a positive value"), this)) /\
  (counted -> (weight parameters <=? s0) = false ->
   (buoyancy parameters <=? s0) = true ->
   setUWVParameters parameters this =
   (Throw (invalid_argument "buoyancy must be a positive value"), this)) /\
  (model_type parameters = INTERMEDIATE -> counted) /\
  (counted -> (weight parameters <=? s0) = false ->
   (buoyancy parameters <=? s0) = false ->
   setUWVParameters parameters this =
   (Ok tt, mkDynamicModel parameters
                          (calcInvInertiaMatrix (inertia_matrix parameters)))).
Proof.
  intros n counted. unfold counted, n.
  rewrite setUWVParameters_eq. unfold checkParameters.
  destruct (Nat.eqb_spec (List.length (damping_matrices parameters)) 2) as [E2|E2];
    destruct (Nat.eqb_spec (List.length (damping_matrices parameters)) 6) as [E6|E6];
    destruct (model_type parameters); simpl;
    repeat split; try discriminate; try contradiction;
    try (intros; exfalso; intuition congruence);
    try (intros _ -> ; reflexivity);
    try (intros _ -> -> ; reflexivity).
Qed.

(** X4 - Successive configurations.  The object an accepted
    [setUWVParameters] leaves does not depend on the object it ran on.  After
    an accepted set [p], a second call with [q] ends as the call with [q]
    alone when [q] is accepted, and throws with the object still configured
    by [p] when [q] is rejected; setting [p] twice is setting it once. *)
Theorem setUWVParameters_twice_outcome p q this this1 :
  setUWVParameters p this = (Ok tt, this1) ->
  (forall this', setUWVParameters p this' = (Ok tt, this1)) /\
  (forall this2, setUWVParameters q this = (Ok tt, this2) ->
                 setUWVParameters_twice p q this = (Ok tt, this2)) /\
  (forall e this2, setUWVParameters q this = (Throw e, this2) ->
                   setUWVParameters_twice p q this = (Throw e, this1) /\
                   getUWVParameters this1 = p) /\
  setUWVParameters_twice p p this = (Ok tt, this1).
Proof.
  intros Hp. unfold setUWVParameters_twice, seq_method. rewrite Hp.
  rewrite setUWVParameters_eq in Hp.
  destruct (checkParameters p) as [[]|ep] eqn:Ep; inversion Hp; subst this1.
  split; [|split; [|split]].
  - intros this'. rewrite setUWVParameters_eq, Ep. reflexivity.
  - intros this2. rewrite !setUWVParameters_eq.
    destruct (checkParameters q) as [[]|eq']; intros E; inversion E; reflexivity.
  - intros e this2. rewrite !setUWVParameters_eq.
    destruct (checkParameters q) as [[]|eq']; intros E; inversion E; subst.
    split; reflexivity.
  - rewrite setUWVParameters_eq, Ep. reflexivity.
Qed.

End Configuration.

(** X12 - NaN weight and buoyancy in IEEE arithmetic.  The tests
    [weight <= 0] and [buoyancy <= 0] are false on NaN, so [checkParameters]
    accepts every binary64 parameter set whose weight and buoyancy are NaN
    once its count test passes. *)
Theorem NaN_weight_accepted (p : UWVParameters float) :
  weight p = PrimFloat.nan -> buoyancy p = PrimFloat.nan ->
  (model_type p = SIMPLE -> List.length (damping_matrices p) = 2%nat) ->
  (model_type p = COMPLEX -> List.length (damping_matrices p) = 6%nat) ->
  sisnan (weight p) = true /\ sisnan (buoyancy p) = true /\
  checkParameters p = Ok tt.
Proof.
  intros Hw Hb H2 H6.
  split; [rewrite Hw; reflexivity|]. split; [rewrite Hb; reflexivity|].
  apply checkParameters_Ok_iff.
  split; [exact H2|]. split; [exact H6|].
  rewrite Hw, Hb. split; reflexivity.
Qed.

(* ================================================================== *)
(** * Further properties of exact arithmetic *)

Section ExactDynamics.
Context {T : Type} `{Scalar T}.
Local Open Scope scalar_scope.

Hypothesis scalar_ring : ring_theory s0 s1 sadd smul ssub sopp (@eq T).
Hypothesis no_NaN : forall x : T, sisnan x = false.

Add Ring scalar_ring_dynamics : scalar_ring.

Implicit Types (p : UWVParameters T) (this : DynamicModel T)
         (v a u : Vector6d T) (R : Quaternion T).

Ltac components :=
  repeat match goal with
         | x : Matrix6d _ |- _ => destruct x
         | x : Vector6d _ |- _ => destruct x
         | x : Vector6 _ |- _ => destruct x
         | x : Vector3d _ |- _ => destruct x
         | x : Vector3 _ |- _ => destruct x
         | x : Quaternion _ |- _ => destruct x
         end;
  cbv [calcCoriolisEffect calcLinDamping calcQuadDamping
       mulv mmul transpose col dot6 dot3 map6 zip6 map3 zip3 add6 sub6 opp6 add3
       sub3 scale3 scale6 cross join3 head3 tail3 const6 Zero6 MZero zero3 e3
       Identity madd mscale mul_asDiagonal asDiagonal cwiseAbs rotate vec
       qw qx qy qz c0 c1 c2 c3 c4 c5 vx vy vz];
  repeat (f_equal; try ring).

Lemma all_NaN_free v : hasNaN v = false.
Proof. unfold hasNaN. rewrite !no_NaN. reflexivity. Qed.

Lemma damping_at_rest p :
  List.length (damping_matrices p) = damping_count (model_type p) ->
  calcDampingAndCoriolisEffect p Zero6 = Ok Zero6.
Proof.
  unfold calcDampingAndCoriolisEffect, caclSimpleDamping, caclGeneralQuadDamping.
  destruct (model_type p); simpl; intros Hlen; rewrite Hlen; simpl.
  - f_equal. generalize (nth 0 (damping_matrices p) MZero) as D0.
    generalize (nth 1 (damping_matrices p) MZero) as D1.
    intros D1 D0. generalize (inertia_matrix p) as M. intros M.
    generalize (sabs s0) as z. intros z. components.
  - f_equal.
    match goal with |- add6 _ (mulv ?S _) = _ => generalize S end.
    intros S. generalize (inertia_matrix p) as M. intros M. components.
  - f_equal. generalize (nth 0 (damping_matrices p) MZero) as D0.
    generalize (nth 1 (damping_matrices p) MZero) as D1.
    intros D1 D0. generalize (inertia_matrix p) as M. intros M.
    generalize (sabs s0) as z. intros z. components.
Qed.

(** X5 - The Coriolis/centripetal term does no work: its scalar product
    with the velocity is zero, for every inertia matrix and velocity. *)
Theorem coriolis_does_no_work (M : Matrix6d T) v :
  dot6 v (calcCoriolisEffect M v) = s0.
Proof.
  unfold calcCoriolisEffect. generalize (mulv M v) as prod. intros prod.
  destruct prod, v.
  cbv [dot6 opp6 join3 cross add3 head3 tail3 map6 zip3
       c0 c1 c2 c3 c4 c5 vx vy vz].
  ring.
Qed.

(** X6 - The Coriolis/centripetal term is quadratic in the velocity and
    additive in the inertia matrix: scaling the velocity by [k] scales the
    term by [k * k], so the term is the same at [v] and at [-v]. *)
Theorem coriolis_quadratic (M M' : Matrix6d T) v (k : T) :
  calcCoriolisEffect M (scale6 k v) = scale6 (k * k) (calcCoriolisEffect M v) /\
  calcCoriolisEffect M (opp6 v) = calcCoriolisEffect M v /\
  calcCoriolisEffect (madd M M') v =
  add6 (calcCoriolisEffect M v) (calcCoriolisEffect M' v).
Proof.
  split; [|split]; components.
Qed.

(** X8 - At rest.  With as many damping matrices as the fidelity reads, the
    damping and Coriolis terms vanish at the zero velocity for each of the
    three fidelities, so [calcEfforts] returns [M a + g(R)] and
    [calcAcceleration] returns [invM (u - g(R))]. *)
Theorem evaluation_at_rest this u a R :
  let p := uwv_parameters this in
  List.length (damping_matrices p) = damping_count (model_type p) ->
  calcDampingAndCoriolisEffect p Zero6 = Ok Zero6 /\
  calcEfforts this a Zero6 R =
    Ok (add6 (mulv (inertia_matrix p) a) (calcGravityBuoyancy R p)) /\
  calcAcceleration this u Zero6 R =
    Ok (mulv (invert_inertia_matrix this) (sub6 u (calcGravityBuoyancy R p))).
Proof.
  intros p Hlen. pose proof (damping_at_rest p Hlen) as Hd.
  split; [exact Hd|]. split.
  - rewrite calcEfforts_checked by apply all_NaN_free. fold p. rewrite Hd. simpl.
    f_equal. generalize (mulv (inertia_matrix p) a) as x.
    generalize (calcGravityBuoyancy R p) as g. intros g x. components.
  - rewrite calcAcceleration_checked by apply all_NaN_free. fold p. rewrite Hd.
    simpl. do 2 f_equal. generalize (calcGravityBuoyancy R p) as g.
    intros g. components.
Qed.

(** X9 - The round trip from the control input.  When the cached matrix is
    a right inverse of the inertia matrix and the damping matrices are as
    many as the fidelity reads, [calcEfforts] applied to the acceleration
    that [calcAcceleration] computes returns the control input. *)
Theorem efforts_of_acceleration_inverse this u v R :
  let p := uwv_parameters this in
  mmul (inertia_matrix p) (invert_inertia_matrix this) = Identity ->
  List.length (damping_matrices p) = damping_count (model_type p) ->
  efforts_of_acceleration this u v R = Ok u.
Proof.
  intros p Hinv Hlen. unfold efforts_of_acceleration.
  destruct (calcDampingAndCoriolisEffect_returns p v Hlen) as [d Hd].
  rewrite calcAcceleration_checked by apply all_NaN_free. fold p. rewrite Hd. simpl.
  rewrite calcEfforts_checked by apply all_NaN_free. fold p. rewrite Hd. simpl.
  f_equal.
  generalize (calcGravityBuoyancy R p) as g. intros g.
  assert (Hx : forall x, mulv (inertia_matrix p) (mulv (invert_inertia_matrix this) x) = x).
  { intros x.
    transitivity (mulv (mmul (inertia_matrix p) (invert_inertia_matrix this)) x).
    - generalize (inertia_matrix p) as A. generalize (invert_inertia_matrix this) as B.
      intros B A. components.
    - rewrite Hinv. components. }
  rewrite Hx. components.
Qed.

(** X10 - Both evaluations are affine in their first vector.  At one
    velocity and orientation, two efforts differ by the inertia matrix
    applied to the difference of the accelerations, and two accelerations by
    the cached inverse applied to the difference of the control inputs. *)
Theorem evaluations_affine this v R :
  (forall a a' t t',
     calcEfforts this a v R = Ok t -> calcEfforts this a' v R = Ok t' ->
     sub6 t t' = mulv (inertia_matrix (uwv_parameters this)) (sub6 a a')) /\
  (forall u u' r r',
     calcAcceleration this u v R = Ok r -> calcAcceleration this u' v R = Ok r' ->
     sub6 r r' = mulv (invert_inertia_matrix this) (sub6 u u')).
Proof.
  split.
  - intros a a' t t'. rewrite !calcEfforts_checked by apply all_NaN_free.
    destruct (calcDampingAndCoriolisEffect (uwv_parameters this) v) as [d|e];
      simpl; [|discriminate].
    intros E E'. inversion E; inversion E'; subst.
    generalize (calcGravityBuoyancy R (uwv_parameters this)) as g.
    generalize (inertia_matrix (uwv_parameters this)) as M. intros M g. components.
  - intros u u' r r'. rewrite !calcAcceleration_checked by apply all_NaN_free.
    destruct (calcDampingAndCoriolisEffect (uwv_parameters this) v) as [d|e];
      simpl; [|discriminate].
    intros E E'. inversion E; inversion E'; subst.
    generalize (calcGravityBuoyancy R (uwv_parameters this)) as g.
    generalize (invert_inertia_matrix this) as M. intros M g. components.
Qed.

(** X11 - The shape of the gravity/buoyancy term.  With [d] the vertical
    [e3] rotated by the inverse orientation, the force part is [(W - B) d]
    and the moment part is [(cg W - cb B) x d]; the moment has no component
    along [d], and along the lever arm neither. *)
Theorem gravity_buoyancy_shape R (W B : T) (cg cb : Vector3d T) :
  let d := rotate (inverse R) e3 in
  let arm := sub3 (scale3 cg W) (scale3 cb B) in
  let g := calcGravityBuoyancy5 R W B cg cb in
  head3 g = scale3 d (W - B) /\
  tail3 g = cross arm d /\
  dot3 (tail3 g) d = s0 /\
  dot3 (tail3 g) arm = s0.
Proof.
  intros d arm g. unfold g, calcGravityBuoyancy5. fold e3 arm d.
  assert (Hrot : rotate (inverse R) (mkVector3 s0 s0 (W - B)) = scale3 d (W - B)).
  { unfold d. generalize (inverse R) as q. intros q. components. }
  rewrite Hrot.
  generalize d as x. generalize arm as y. intros y x.
  split; [|split; [|split]].
  - destruct x; reflexivity.
  - destruct x, y; reflexivity.
  - destruct x, y. cbv [dot3 tail3 join3 cross scale3 map3 vx vy vz c3 c4 c5]. ring.
  - destruct x, y. cbv [dot3 tail3 join3 cross scale3 map3 vx vy vz c3 c4 c5]. ring.
Qed.

(** ** Damping under a sign change of the velocity *)

Hypothesis sabs_opp : forall x : T, sabs (- x) = sabs x.

Lemma cwiseAbs_opp6 v : cwiseAbs (opp6 v) = cwiseAbs v.
Proof. destruct v. cbv [cwiseAbs opp6 map6 c0 c1 c2 c3 c4 c5]. rewrite !sabs_opp. reflexivity. Qed.

(** X7 - Damping is odd in the velocity.  Both damping routines return at
    [-v] the negation of what they return at [v] and throw at [-v] what they
    throw at [v]; so does the SIMPLE dispatch, while under INTERMEDIATE and
    COMPLEX the Coriolis part keeps its sign. *)
Theorem damping_odd (l : list (Matrix6d T)) p v :
  caclSimpleDamping l (opp6 v) = (d <- caclSimpleDamping l v ;; Ok (opp6 d)) /\
  caclGeneralQuadDamping l (opp6 v) = (d <- caclGeneralQuadDamping l v ;; Ok (opp6 d)) /\
  (model_type p = SIMPLE ->
   calcDampingAndCoriolisEffect p (opp6 v) =
   (d <- calcDampingAndCoriolisEffect p v ;; Ok (opp6 d))) /\
  (model_type p <> SIMPLE ->
   calcDampingAndCoriolisEffect p (opp6 v) =
   (d <- calcDampingAndCoriolisEffect p v ;;
    Ok (sub6 (scale6 (s1 + s1) (calcCoriolisEffect (inertia_matrix p) v)) d))).
Proof.
  assert (Hs : forall l', caclSimpleDamping l' (opp6 v) =
                          (d <- caclSimpleDamping l' v ;; Ok (opp6 d))).
  { intros l'. unfold caclSimpleDamping.
    destruct (negb (List.length l' =? 2)%nat); simpl; [reflexivity|].
    unfold calcLinDamping, calcQuadDamping. rewrite cwiseAbs_opp6.
    generalize (cwiseAbs v) as w. generalize (nth 0 l' MZero) as D0.
    generalize (nth 1 l' MZero) as D1. intros D1 D0 w. f_equal. components. }
  assert (Hg : forall l', caclGeneralQuadDamping l' (opp6 v) =
                          (d <- caclGeneralQuadDamping l' v ;; Ok (opp6 d))).
  { intros l'. unfold caclGeneralQuadDamping.
    destruct (negb (List.length l' =? 6)%nat); simpl; [reflexivity|].
    rewrite cwiseAbs_opp6.
    match goal with |- Ok (mulv ?S _) = _ => generalize S end.
    intros S. f_equal. components. }
  split; [apply Hs|]. split; [apply Hg|].
  unfold calcDampingAndCoriolisEffect. split.
  - intros ->. apply Hs.
  - intros Hm. destruct (model_type p); [contradiction Hm; reflexivity| |].
    + rewrite Hg. destruct (caclGeneralQuadDamping (damping_matrices p) v); simpl;
        [|reflexivity].
      f_equal. generalize (inertia_matrix p) as M. intros M. components.
    + rewrite Hs. destruct (caclSimpleDamping (damping_matrices p) v); simpl;
        [|reflexivity].
      f_equal. generalize (inertia_matrix p) as M. intros M. components.
Qed.

End ExactDynamics.

(* ================================================================== *)
(** * Instances of the further properties *)

Lemma Qc_sabs_opp (x : Qc) : sabs (- x)%S = sabs x.
Proof. exact (Qcabs_opp x). Qed.

Lemma accepted_simple_complex_evaluate_witness :
  let u := Qc_vector 1 2 3 4 5 6 in
  let v := Qc_vector 1 (-2) 3 (-4) 5 (-6) in
  let configured := snd (setUWVParameters Qc_complex Qc_model_0) in
  setUWVParameters Qc_complex Qc_model_0 = (Ok tt, configured) /\
  (exists r, calcAcceleration configured u v Qc_orientation = Ok r) /\
  (exists r, calcEfforts configured u v Qc_orientation = Ok r).
Proof.
  intros u v configured.
  assert (Hset : setUWVParameters Qc_complex Qc_model_0 = (Ok tt, configured))
    by reflexivity.
  assert (Hm : model_type Qc_complex <> INTERMEDIATE) by discriminate.
  destruct (accepted_simple_complex_evaluate Qc_complex Qc_model_0 u u v
              Qc_orientation Hset Hm eq_refl) as [Hacc Heff].
  split; [exact Hset|]. split; [apply Hacc | apply Heff]; reflexivity.
Defined.

Lemma evaluation_returns_iff_witness :
  let u := Qc_vector 1 2 3 4 5 6 in
  let v := Qc_vector 1 (-2) 3 (-4) 5 (-6) in
  let uncounted := mkDynamicModel intermediate_without_damping Identity in
  (exists r, calcAcceleration Qc_configured u v Qc_orientation = Ok r) /\
  (exists r, calcEfforts Qc_configured u v Qc_orientation = Ok r) /\
  (exists what, calcEfforts uncounted u v Qc_orientation = Throw (runtime_error what)).
Proof.
  intros u v uncounted.
  destruct (evaluation_returns_iff Qc_configured u u v Qc_orientation)
    as ([_ Hacc] & [_ Heff] & _).
  destruct (evaluation_returns_iff uncounted u u v Qc_orientation)
    as (_ & _ & Hthrow).
  split; [apply Hacc; repeat split|]. split; [apply Heff; repeat split|].
  destruct (calcEfforts uncounted u v Qc_orientation) as [r|e] eqn:E;
    [vm_compute in E; discriminate|].
  destruct (Hthrow e (or_intror eq_refl)) as [what ->]. exists what. reflexivity.
Defined.

Lemma setUWVParameters_outcome_witness :
  let simple_without_damping :=
    mkUWVParameters SIMPLE Qc_inertia [] zero3 zero3 (qc 0) (qc 1) in
  let sinking := mkUWVParameters INTERMEDIATE Qc_inertia [] zero3 zero3 (qc 1) (qc 0) in
  setUWVParameters simple_without_damping Qc_model_0 =
    (Throw (invalid_argument "in SIMPLE model, damping_matrices should have two elements, the linear damping matrix and quadratic damping matrix"), Qc_model_0) /\
  setUWVParameters complex_with_two Qc_model_0 =
    (Throw (invalid_argument "in COMPLEX model, damping_matrices should have six elements, one quadratic damping matrix / DOF"), Qc_model_0) /\
  setUWVParameters Qc_weightless Qc_model_0 =
    (Throw (invalid_argument "weight must be a positive value"), Qc_model_0) /\
  setUWVParameters sinking Qc_model_0 =
    (Throw (invalid_argument "buoyancy must be a positive value"), Qc_model_0) /\
  setUWVParameters Qc_intermediate Qc_model_0 =
    (Ok tt, mkDynamicModel Qc_intermediate (calcInvInertiaMatrix Qc_inertia)).
Proof.
  intros simple_without_damping sinking.
  destruct (setUWVParameters_outcome simple_without_damping Qc_model_0)
    as (H1 & _).
  destruct (setUWVParameters_outcome complex_with_two Qc_model_0)
    as (_ & H2 & _).
  destruct (setUWVParameters_outcome Qc_weightless Qc_model_0)
    as (_ & _ & H3 & _ & Hc3 & _).
  destruct (setUWVParameters_outcome sinking Qc_model_0)
    as (_ & _ & _ & H4 & Hc4 & _).
  destruct (setUWVParameters_outcome Qc_intermediate Qc_model_0)
    as (_ & _ & _ & _ & Hc5 & H5).
  split; [apply H1; [reflexivity | simpl; discriminate]|].
  split; [apply H2; [reflexivity | simpl; discriminate]|].
  split; [apply H3; [apply Hc3 |]; reflexivity|].
  split; [apply H4; [apply Hc4 | |]; reflexivity|].
  apply H5; [apply Hc5 | |]; reflexivity.
Defined.

Lemma setUWVParameters_twice_outcome_witness :
  setUWVParameters Qc_intermediate Qc_model_0 = (Ok tt, Qc_configured) /\
  setUWVParameters Qc_intermediate Qc_model_1 = (Ok tt, Qc_configured) /\
  setUWVParameters_twice Qc_intermediate Qc_complex Qc_model_0 =
    setUWVParameters Qc_complex Qc_model_0 /\
  (exists e, setUWVParameters_twice Qc_intermediate complex_with_two Qc_model_0 =
             (Throw e, Qc_configured)) /\
  setUWVParameters_twice Qc_intermediate Qc_intermediate Qc_model_0 =
    (Ok tt, Qc_configured).
Proof.
  assert (Hset : setUWVParameters Qc_intermediate Qc_model_0 = (Ok tt, Qc_configured))
    by reflexivity.
  destruct (setUWVParameters_twice_outcome Qc_intermediate Qc_complex Qc_model_0 Hset)
    as (Hany & Hok & _ & Hsame).
  destruct (setUWVParameters_twice_outcome Qc_intermediate complex_with_two Qc_model_0 Hset)
    as (_ & _ & Hthrow & _).
  split; [exact Hset|]. split; [apply Hany|].
  split.
  - assert (Hc : setUWVParameters Qc_complex Qc_model_0 =
                 (Ok tt, snd (setUWVParameters Qc_complex Qc_model_0)))
      by reflexivity.
    rewrite (Hok _ Hc). symmetry. exact Hc.
  - split; [|exact Hsame].
    destruct (setUWVParameters complex_with_two Qc_model_0) as [[[]|e] s] eqn:E;
      [vm_compute in E; discriminate|].
    exists e. exact (proj1 (Hthrow e s eq_refl)).
Defined.

Lemma coriolis_does_no_work_witness :
  dot6 (Qc_vector 1 (-2) 3 (-4) 5 (-6))
       (calcCoriolisEffect Qc_inertia (Qc_vector 1 (-2) 3 (-4) 5 (-6))) = s0.
Proof.
  apply (coriolis_does_no_work Qc_ring Qc_inertia (Qc_vector 1 (-2) 3 (-4) 5 (-6))).
Defined.

Lemma coriolis_quadratic_witness :
  let v := Qc_vector 1 (-2) 3 (-4) 5 (-6) in
  calcCoriolisEffect Qc_inertia (scale6 (qc 3) v) =
    scale6 (qc 3 * qc 3)%S (calcCoriolisEffect Qc_inertia v) /\
  calcCoriolisEffect Qc_inertia (opp6 v) = calcCoriolisEffect Qc_inertia v /\
  calcCoriolisEffect (madd Qc_inertia Qc_rank_one) v =
    add6 (calcCoriolisEffect Qc_inertia v) (calcCoriolisEffect Qc_rank_one v).
Proof.
  intros v. apply (coriolis_quadratic Qc_ring Qc_inertia Qc_rank_one v (qc 3)).
Defined.

Lemma damping_odd_witness :
  let v := Qc_vector 1 (-2) 3 (-4) 5 (-6) in
  caclSimpleDamping [Qc_rank_one; Identity] (opp6 v) =
    (d <- caclSimpleDamping [Qc_rank_one; Identity] v ;; Ok (opp6 d)) /\
  caclGeneralQuadDamping (damping_matrices Qc_complex) (opp6 v) =
    (d <- caclGeneralQuadDamping (damping_matrices Qc_complex) v ;; Ok (opp6 d)) /\
  calcDampingAndCoriolisEffect Qc_simple (opp6 v) =
    (d <- calcDampingAndCoriolisEffect Qc_simple v ;; Ok (opp6 d)) /\
  calcDampingAndCoriolisEffect Qc_complex (opp6 v) =
    (d <- calcDampingAndCoriolisEffect Qc_complex v ;;
     Ok (sub6 (scale6 (s1 + s1)%S (calcCoriolisEffect Qc_inertia v)) d)).
Proof.
  intros v.
  destruct (damping_odd Qc_ring Qc_sabs_opp [Qc_rank_one; Identity] Qc_simple v)
    as (H1 & _ & H3 & _).
  destruct (damping_odd Qc_ring Qc_sabs_opp (damping_matrices Qc_complex) Qc_complex v)
    as (_ & H2 & _ & H4).
  split; [exact H1|]. split; [exact H2|].
  split; [apply H3; reflexivity | apply H4; discriminate].
Defined.

Lemma evaluation_at_rest_witness :
  let u := Qc_vector 1 2 3 4 5 6 in
  let g := calcGravityBuoyancy Qc_orientation Qc_intermediate in
  calcDampingAndCoriolisEffect Qc_intermediate Zero6 = Ok Zero6 /\
  calcEfforts Qc_configured u Zero6 Qc_orientation = Ok (add6 (mulv Qc_inertia u) g) /\
  calcAcceleration Qc_configured u Zero6 Qc_orientation =
    Ok (mulv (invert_inertia_matrix Qc_configured) (sub6 u g)).
Proof.
  intros u g.
  apply (evaluation_at_rest Qc_ring Qc_no_NaN Qc_configured u u Qc_orientation).
  reflexivity.
Defined.

Lemma efforts_of_acceleration_inverse_witness :
  let u := Qc_vector 1 2 3 4 5 6 in
  let v := Qc_vector 1 (-2) 3 (-4) 5 (-6) in
  mmul Qc_inertia (invert_inertia_matrix Qc_configured) = Identity /\
  efforts_of_acceleration Qc_configured u v Qc_orientation = Ok u.
Proof.
  intros u v.
  assert (Hinv : mmul Qc_inertia (invert_inertia_matrix Qc_configured) = Identity)
    by Qc_entries.
  split; [exact Hinv|].
  apply (efforts_of_acceleration_inverse Qc_ring Qc_no_NaN Qc_configured u v
           Qc_orientation Hinv).
  reflexivity.
Defined.

Lemma evaluations_affine_witness :
  let a := Qc_vector 1 2 3 4 5 6 in
  let a' := Qc_vector 6 5 4 3 2 1 in
  let v := Qc_vector 1 (-2) 3 (-4) 5 (-6) in
  match calcEfforts Qc_configured a v Qc_orientation,
        calcEfforts Qc_configured a' v Qc_orientation with
  | Ok t, Ok t' => sub6 t t' = mulv Qc_inertia (sub6 a a')
  | _, _ => False
  end /\
  match calcAcceleration Qc_configured a v Qc_orientation,
        calcAcceleration Qc_configured a' v Qc_orientation with
  | Ok r, Ok r' => sub6 r r' = mulv (invert_inertia_matrix Qc_configured) (sub6 a a')
  | _, _ => False
  end.
Proof.
  intros a a' v.
  destruct (evaluations_affine Qc_ring Qc_no_NaN Qc_configured v Qc_orientation)
    as [Heff Hacc].
  split.
  - destruct (calcEfforts Qc_configured a v Qc_orientation) as [t|e] eqn:E;
      [|vm_compute in E; discriminate].
    destruct (calcEfforts Qc_configured a' v Qc_orientation) as [t'|e] eqn:E';
      [|vm_compute in E'; discriminate].
    apply (Heff a a' t t' E E').
  - destruct (calcAcceleration Qc_configured a v Qc_orientation) as [r|e] eqn:E;
      [|vm_compute in E; discriminate].
    destruct (calcAcceleration Qc_configured a' v Qc_orientation) as [r'|e] eqn:E';
      [|vm_compute in E'; discriminate].
    apply (Hacc a a' r r' E E').
Defined.

Lemma gravity_buoyancy_shape_witness :
  let d := rotate (inverse Qc_orientation) e3 in
  let cg := Qc_vector3 0 0 1 in
  let cb := Qc_vector3 1 0 0 in
  let g := calcGravityBuoyancy5 Qc_orientation (qc 30) (qc 28) cg cb in
  head3 g = scale3 d (qc 30 - qc 28)%S /\
  tail3 g = cross (sub3 (scale3 cg (qc 30)) (scale3 cb (qc 28))) d /\
  dot3 (tail3 g) d = s0 /\
  dot3 (tail3 g) (sub3 (scale3 cg (qc 30)) (scale3 cb (qc 28))) = s0.
Proof.
  intros d cg cb g.
  apply (gravity_buoyancy_shape Qc_ring Qc_orientation (qc 30) (qc 28) cg cb).
Defined.

Lemma NaN_weight_accepted_witness :
  weight float_nan_weight = PrimFloat.nan /\
  buoyancy float_nan_weight = PrimFloat.nan /\
  List.length (damping_matrices float_nan_weight) = 6%nat /\
  checkParameters float_nan_weight = Ok tt.
Proof.
  split; [reflexivity|]. split; [reflexivity|]. split; [reflexivity|].
  apply (NaN_weight_accepted float_nan_weight eq_refl eq_refl).
  - discriminate.
  - reflexivity.
Defined.
